(** * Vision-Design: job submission, polling and payload construction

    A shallow embedding of the backend clients of the repository

    - [backend/core/flux_client.py] (class [FluxClient]),
    - [backend/core/sora.py] (class [Sora]),
    - [backend/api/endpoints/images.py] (the [/pipeline] endpoint and
      [normalize_filename]),
    - [backend/api/endpoints/flux.py] (the four Flux endpoints),

    together with the properties the specification states about them and
    further properties read off the code.

    Python dictionaries are [gmap string value]; HTTP traffic and the
    clock are threaded through an explicit world by a small state and
    exception monad; [while] loops take fuel.  Calls to [logger] change
    neither results nor control flow and are left out. *)

From stdpp Require Import gmap strings list fin_maps pretty.
From Stdlib Require Import ZArith QArith.QArith_base QArith.Qround Lia Ascii.

#[local] Set Warnings "-register-all".
#[local] Open Scope string_scope.
#[local] Open Scope Z_scope.

(** ** Python values *)

(** The values that travel in keyword arguments and JSON documents.  A
    float is carried as the rational it denotes; no arithmetic is done
    on it. *)
Inductive value :=
| VNone
| VBool (b : bool)
| VInt (z : Z)
| VFloat (q : Q)
| VStr (s : string)
| VList (l : list value)
| VDict (d : gmap string value).

Abbreviation dict := (gmap string value).

(** [v is None] *)
Definition is_none (v : value) : bool :=
  match v with VNone => true | _ => false end.

(** [v == s] for a string literal [s] *)
Definition eq_str (v : value) (s : string) : bool :=
  match v with VStr t => String.eqb t s | _ => false end.

(** Python truthiness, [bool(v)] *)
Definition truthy (v : value) : bool :=
  match v with
  | VNone => false
  | VBool b => b
  | VInt z => negb (Z.eqb z 0)
  | VFloat q => negb (Qeq_bool q 0)
  | VStr s => negb (String.eqb s "")
  | VList l => negb (Nat.eqb (length l) 0)
  | VDict d => negb (Nat.eqb (size d) 0)
  end.

(** [d.get(k)] and [d.get(k, dflt)] *)
Definition get (d : dict) (k : string) : value := default VNone (d !! k).
Definition get_or (d : dict) (k : string) (dflt : value) : value :=
  default dflt (d !! k).

(** [d.update({k1: v1, ...})]: later bindings win *)
Definition update (d : dict) (kvs : list (string * value)) : dict :=
  foldl (λ acc kv, <[kv.1 := kv.2]> acc) d kvs.

(** [{k: v for k, v in d.items() if v is not None}] *)
Definition drop_none (d : dict) : dict :=
  filter (λ kv, is_none kv.2 = false) d.

(** ** Exceptions *)

Inductive exn :=
| ValueError_unsupported_model (model : string)
    (* ValueError(f"Unsupported model: {model}. ...") *)
| ValueError_sleep              (* time.sleep with a negative length *)
| RequestException (msg : string) (* raised by the transport itself *)
| HTTPError (code : Z)          (* Response.raise_for_status *)
| JSONDecodeError               (* Response.json *)
| Flux_generation_failed (error_msg : value)
    (* Exception(f"Flux generation failed: {error_msg}") *)
| No_task_id                    (* Exception("No task ID returned from Flux API") *)
| TimeoutError (task_id : value) (max_wait_time : Z)
    (* TimeoutError(f"Flux task {task_id} did not complete within ...") *)
| TypeError
| HTTPException (status : Z) (detail : string). (* fastapi.HTTPException *)

(** ** HTTP and the clock *)

Inductive method := GET | POST.

(** A form field of a multipart request: a string, or the string
    [json.dumps(j)], kept as the document it serialises. *)
Inductive form_value :=
| FStr (s : string)
| FJson (j : value).

(** One entry of [files=]: [("files", (filename, BytesIO(content), mime))] *)
Record file_part := FilePart {
  fp_field : string;
  fp_filename : string;
  fp_content : list Byte.byte;
  fp_mime : string
}.

Inductive body :=
| NoBody
| JsonBody (j : dict)
| MultipartBody (data : list (string * form_value)) (files : list file_part).

Record request := Request {
  rq_method : method;
  rq_url : string;
  rq_params : list (string * value);
  rq_headers : list (string * string);
  rq_body : body
}.

(** What [requests] hands back.  [body_json] is [None] when the body does
    not decode to a JSON object, in which case [json()] raises.  A body
    that is JSON of another kind is taken the same way: [json()] would
    return it and the Flux client raise at its first [.get]; which error
    is raised for such a body is not modelled. *)
Record response := Response {
  status_code : Z;
  content : list Byte.byte;
  body_json : option dict
}.

Inductive net_result :=
| NetOk (r : response)
| NetErr (msg : string).

(** The outside world: the resolution of the clock, the answer to the
    [n]-th HTTP call, how long that call takes, and by how much the [n]-th
    sleep overshoots.  Times are in clock ticks; a duration cannot be
    negative. *)
Record Env := {
  ticks_per_second : positive;
  respond : nat → request → net_result;
  latency : nat → N;
  oversleep : nat → N
}.

Record world := World {
  now : Z;
  trace : list (request * net_result);
  sleeps : list Z
}.

(** ** The monad *)

Inductive outcome (A : Type) :=
| Done (a : A)
| Raised (e : exn)
| OutOfFuel.
Arguments Done {A} a.
Arguments Raised {A} e.
Arguments OutOfFuel {A}.

Definition M (A : Type) : Type := world → outcome A * world.

Definition ret {A} (a : A) : M A := λ w, (Done a, w).
Definition raise {A} (e : exn) : M A := λ w, (Raised e, w).
Definition bind {A B} (m : M A) (k : A → M B) : M B :=
  λ w, match m w with
       | (Done a, w') => k a w'
       | (Raised e, w') => (Raised e, w')
       | (OutOfFuel, w') => (OutOfFuel, w')
       end.

#[export] Instance M_ret : MRet M := @ret.
#[export] Instance M_bind : MBind M := λ A B k m, bind m k.

Definition out_of_fuel {A} : M A := λ w, (OutOfFuel, w).

(** ** The [requests] and [time] primitives *)

Section Client.
Context (env : Env).

(** One HTTP exchange: the world answers, the clock moves on by the
    call's latency, and the exchange is appended to the trace. *)
Definition http (rq : request) : M net_result := λ w,
  let n := length (trace w) in
  let r := respond env n rq in
  (Done r, {| now := now w + Z.of_N (latency env n);
              trace := trace w ++ [(rq, r)];
              sleeps := sleeps w |}).

Definition requests_send (rq : request) : M response :=
  r ← http rq;
  match r with
  | NetOk resp => mret resp
  | NetErr msg => raise (RequestException msg)
  end.

(** [requests.get(url, params=..., headers=...)] *)
Definition requests_get (url : string) (params : list (string * value))
    (hdrs : list (string * string)) : M response :=
  requests_send (Request GET url params hdrs NoBody).

(** [requests.post(url, json=..., headers=...)] *)
Definition requests_post_json (url : string) (j : dict)
    (hdrs : list (string * string)) : M response :=
  requests_send (Request POST url [] hdrs (JsonBody j)).

(** [requests.post(url, headers=..., data=..., files=...)] *)
Definition requests_post_multipart (url : string)
    (hdrs : list (string * string)) (data : list (string * form_value))
    (files : list file_part) : M response :=
  requests_send (Request POST url [] hdrs (MultipartBody data files)).

(** [Response.ok]: true unless [raise_for_status] would raise, which it
    does for the codes 400 to 599. *)
Definition ok (r : response) : bool :=
  negb ((400 <=? status_code r) && (status_code r <? 600)).

Definition raise_for_status (r : response) : M unit :=
  if ok r then mret tt else raise (HTTPError (status_code r)).

Definition json (r : response) : M dict :=
  match body_json r with
  | Some d => mret d
  | None => raise JSONDecodeError
  end.

Definition time_time : M Z := λ w, (Done (now w), w).

(** [time.sleep(d)]: refuses a negative length, otherwise suspends for at
    least [d]. *)
Definition time_sleep (d : Z) : M unit := λ w,
  if d <? 0 then (Raised ValueError_sleep, w)
  else (Done tt, {| now := now w + d + Z.of_N (oversleep env (length (sleeps w)));
                    trace := trace w;
                    sleeps := sleeps w ++ [d] |}).

(** ** [FluxClient] *)

Record FluxClient := { api_key : string }.

Definition base_url (self : FluxClient) : string := "https://api.bfl.ml".

Definition headers (self : FluxClient) : list (string * string) :=
  [("Authorization", "Bearer " +:+ api_key self);
   ("Content-Type", "application/json")].

Definition model_endpoints : gmap string string :=
  list_to_map [("flux-pro", "flux-pro");
               ("flux-pro-ultra", "flux-pro-ultra");
               ("flux-kontext", "flux-kontext")].

(** The model-specific [payload.update({...})] of [generate_image] *)
Definition model_fields (model : string) (kwargs : dict) : list (string * value) :=
  if String.eqb model "flux-pro" then
    [("width", get_or kwargs "width" (VInt 1024));
     ("height", get_or kwargs "height" (VInt 1024));
     ("prompt_upsampling", get_or kwargs "prompt_upsampling" (VBool false));
     ("seed", get kwargs "seed");
     ("safety_tolerance", get_or kwargs "safety_tolerance" (VInt 2));
     ("output_format", get_or kwargs "output_format" (VStr "jpeg"))]
  else if String.eqb model "flux-pro-ultra" then
    [("aspect_ratio", get_or kwargs "aspect_ratio" (VStr "16:9"));
     ("prompt_upsampling", get_or kwargs "prompt_upsampling" (VBool false));
     ("seed", get kwargs "seed");
     ("safety_tolerance", get_or kwargs "safety_tolerance" (VInt 2));
     ("output_format", get_or kwargs "output_format" (VStr "jpeg"));
     ("raw", get_or kwargs "raw" (VBool false));
     ("image_prompt", get kwargs "image_prompt");
     ("image_prompt_strength", get_or kwargs "image_prompt_strength" (VFloat (1 # 10)%Q))]
  else if String.eqb model "flux-kontext" then
    [("width", get_or kwargs "width" (VInt 1024));
     ("height", get_or kwargs "height" (VInt 1024));
     ("prompt_upsampling", get_or kwargs "prompt_upsampling" (VBool false));
     ("seed", get kwargs "seed");
     ("safety_tolerance", get_or kwargs "safety_tolerance" (VInt 2));
     ("output_format", get_or kwargs "output_format" (VStr "jpeg"));
     ("image_prompt", get kwargs "image_prompt");
     ("image_prompt_strength", get_or kwargs "image_prompt_strength" (VFloat (1 # 10)%Q))]
  else [].

(** [if kwargs.get(k): payload[k] = kwargs[k]] *)
Definition add_if_given (k : string) (kwargs : dict) (payload : dict) : dict :=
  if truthy (get kwargs k) then <[k := get kwargs k]> payload else payload.

(** The request body [generate_image] builds, from [payload = {...}] down
    to the removal of the [None] values. *)
Definition generate_image_payload (prompt : string) (model : string)
    (kwargs : dict) : dict :=
  let payload : dict := {[ "prompt" := VStr prompt ]} in
  let payload := update payload (model_fields model kwargs) in
  let payload := add_if_given "webhook_url" kwargs payload in
  let payload := add_if_given "webhook_secret" kwargs payload in
  drop_none payload.

Definition generate_image (self : FluxClient) (prompt : string)
    (model : string) (kwargs : dict) : M dict :=
  match model_endpoints !! model with
  | None => raise (ValueError_unsupported_model model)
  | Some name =>
      let endpoint := base_url self +:+ "/v1/" +:+ name in
      let payload := generate_image_payload prompt model kwargs in
      response ← requests_post_json endpoint payload (headers self);
      raise_for_status response;;
      json response
  end.

Definition get_task_status (self : FluxClient) (task_id : value) : M dict :=
  let endpoint := base_url self +:+ "/v1/get_result" in
  let params := [("id", task_id)] in
  response ← requests_get endpoint params (headers self);
  raise_for_status response;;
  json response.

(** The [while] loop of [wait_for_completion]; [fuel] bounds the number of
    times its condition is evaluated. *)
Fixpoint wait_loop (fuel : nat) (self : FluxClient) (task_id : value)
    (start_time max_wait_time poll_interval : Z) : M dict :=
  match fuel with
  | O => out_of_fuel
  | S fuel' =>
      t ← time_time;
      if t - start_time <? max_wait_time then
        status ← get_task_status self task_id;
        if eq_str (get status "status") "Ready" then mret status
        else if eq_str (get status "status") "Error" then
          let error_msg := get_or status "error" (VStr "Unknown error") in
          raise (Flux_generation_failed error_msg)
        else
          time_sleep poll_interval;;
          wait_loop fuel' self task_id start_time max_wait_time poll_interval
      else raise (TimeoutError task_id max_wait_time)
  end.

Definition wait_for_completion (fuel : nat) (self : FluxClient)
    (task_id : value) (max_wait_time poll_interval : Z) : M dict :=
  start_time ← time_time;
  wait_loop fuel self task_id start_time max_wait_time poll_interval.

(** A number of seconds handed over as a Python value, in ticks.  The
    value is only ever compared with a whole number of elapsed ticks, so a
    float is rounded up.  [None] when the comparison
    [elapsed < max_wait_time] raises [TypeError]. *)
Definition seconds_to_ticks (v : value) : option Z :=
  let tps := Z.pos (ticks_per_second env) in
  match v with
  | VInt z => Some (z * tps)
  | VBool b => Some (if b then tps else 0)
  | VFloat q => Some (Qceiling (q * inject_Z tps))
  | _ => None
  end.

Definition generate_and_wait (fuel : nat) (self : FluxClient)
    (prompt : string) (model : string) (kwargs : dict) : M dict :=
  result ← generate_image self prompt model kwargs;
  let task_id := get result "id" in
  if negb (truthy task_id) then raise No_task_id
  else
    match seconds_to_ticks (get_or kwargs "max_wait_time" (VInt 300)) with
    | Some max_wait_time =>
        wait_for_completion fuel self task_id max_wait_time
          (5 * Z.pos (ticks_per_second env))
    | None => raise TypeError
    end.

Definition download_image (self : FluxClient) (image_url : string)
    : M (list Byte.byte) :=
  response ← requests_get image_url [] [];
  raise_for_status response;;
  mret (content response).

End Client.

(** ** [Sora] *)

Module Sora.
Section Client.
Context (env : Env).

Record Sora := {
  resource_name : string;
  deployment_name : string;
  api_key : string;
  api_version : string
}.

Definition base_url (self : Sora) : string :=
  "https://" +:+ resource_name self +:+ ".openai.azure.com/openai/v1/video".

Definition headers (self : Sora) : list (string * string) :=
  [("api-key", api_key self); ("Content-Type", "application/json")].

(** [str.lower], on the ASCII letters *)
Definition lower_ascii (c : ascii) : ascii :=
  let n := nat_of_ascii c in
  if (65 <=? n)%nat && (n <=? 90)%nat then ascii_of_nat (n + 32) else c.

Fixpoint lower (s : string) : string :=
  match s with
  | EmptyString => EmptyString
  | String c s' => String (lower_ascii c) (lower s')
  end.

(** [str(n)] for an integer *)
Definition str (n : Z) : string := pretty n.

Definition build_files (images : list (list Byte.byte))
    (image_filenames : list string) : list file_part :=
  (λ p, FilePart "files" p.2 p.1 "image/jpeg") <$> zip images image_filenames.

Definition crop_bounds : value :=
  VDict (list_to_map [("left_fraction", VFloat 0%Q);
                      ("top_fraction", VFloat 0%Q);
                      ("right_fraction", VFloat 1%Q);
                      ("bottom_fraction", VFloat 1%Q)]).

Definition item_no_crop (filename : string) : value :=
  VDict (list_to_map [("frame_index", VInt 0);
                      ("type", VStr "image");
                      ("file_name", VStr filename)]).

Definition item_with_crop (filename : string) : value :=
  VDict (list_to_map [("frame_index", VInt 0);
                      ("type", VStr "image");
                      ("file_name", VStr filename);
                      ("crop_bounds", crop_bounds)]).

Definition create_video_generation_job_with_images (self : Sora)
    (prompt : string) (images : list (list Byte.byte))
    (image_filenames : list string) (n_seconds height width n_variants : Z)
    : M dict :=
  let url := base_url self +:+ "/generations/jobs?api-version="
             +:+ api_version self in
  let multipart_headers :=
    filter (λ kv, lower kv.1 ≠ "content-type") (headers self) in
  let base_data :=
    [("prompt", FStr prompt);
     ("height", FStr (str height));
     ("width", FStr (str width));
     ("n_seconds", FStr (str n_seconds));
     ("n_variants", FStr (str n_variants));
     ("model", FStr (deployment_name self))] in
  let data_no_crop :=
    (base_data ++
     [("inpaint_items", FJson (VList (item_no_crop <$> image_filenames)))])%list in
  response ← requests_post_multipart env url multipart_headers data_no_crop
                (build_files images image_filenames);
  if ok response then json response
  else
    let data_with_crop :=
      (base_data ++
       [("inpaint_items", FJson (VList (item_with_crop <$> image_filenames)))])%list in
    response2 ← requests_post_multipart env url multipart_headers data_with_crop
                   (build_files images image_filenames);
    (if negb (ok response2) then raise_for_status response2 else mret tt);;
    json response2.

End Client.
End Sora.

(** ** The pipeline endpoint and its dispatcher *)

Module Pipeline.

(** Modelled from the spec: the request and response models of
    [backend/models/images.py], absent from the sources; their fields
    follow section 3 ([PipelineRequest], [PipelineResponse]) under the
    names the endpoint uses. *)
Inductive PipelineAction := Generate | Edit.

Record PipelineSaveOptions := {
  enabled : bool;
  save_all : bool;
  folder_path : string
}.

Record PipelineAnalysisOptions := { analysis_enabled : bool }.

Record ImagePipelineRequest := {
  action : PipelineAction;
  prompt : string;
  model : string;
  parameters : dict;
  save_options : PipelineSaveOptions;
  analysis_options : PipelineAnalysisOptions
}.

(** Modelled from the spec: a stage of the pipeline, an error captured
    as a stage and a message, and the outcome of one stage. *)
Inductive stage := Generation | Save | Analysis.

Record stage_error := StageError { err_stage : stage; err_message : string }.

Inductive stage_result (A : Type) :=
| Succeeded (a : A)
| Failed (e : stage_error).
Arguments Succeeded {A} a.
Arguments Failed {A} e.

(** Modelled from the spec: what the vision analysis collaborator
    returns. *)
Record analysis := {
  description : string;
  products : string;
  tags : list string;
  feedback : string
}.

(** Modelled from the spec: the response, one outcome per stage; Save
    holds one outcome per artifact saved. *)
Record ImagePipelineResponse := {
  generationResult : stage_result (list (list Byte.byte));
  saveResult : option (list (stage_result string));
  analysisResult : option (stage_result analysis)
}.

(** A collaborator call: it changes the world and returns or raises. *)
Definition C (A : Type) : Type := world → (exn + A) * world.

(** [try: ... except Exception as e: ...] around a collaborator call *)
Definition attempt {A} (c : C A) : M (exn + A) := λ w,
  let r := c w in (Done r.1, r.2).

Record StorageService := {
  upload : list Byte.byte → string → C string
}.

Record MetadataService := {
  create_record : ImagePipelineRequest → string → C string
}.

Fixpoint mapM {A B} (f : A → M B) (l : list A) : M (list B) :=
  match l with
  | [] => mret []
  | x :: l' => y ← f x; ys ← mapM f l'; mret (y :: ys)
  end.

Section Dispatcher.

(** The request model's parser, [ImagePipelineRequest.parse_raw]: the
    request, or the detail of the validation error. *)
Context (parse_raw : string → string + ImagePipelineRequest).
(** [GenerationCoordinator.submitAndWait], for a generate or an edit call *)
Context (submit_and_wait : ImagePipelineRequest → list (list Byte.byte) →
                           option (list Byte.byte) → C (list (list Byte.byte))).
(** The vision analysis collaborator *)
Context (analyze : list (list Byte.byte) → C analysis).
(** [str(e)] *)
Context (message_of : exn → string).

Definition is_nonempty {A} (l : option (list A)) : bool :=
  match l with Some (_ :: _) => true | _ => false end.

(** Modelled from the spec: the Generation stage of
    [ImagePipelineService.process_pipeline] ([backend/core/image_pipeline.py],
    absent from the sources).  An edit needs a source image and is refused
    before any backend call without one; otherwise the stage delegates to
    [submitAndWait] and captures its error. *)
Definition generation_stage (request : ImagePipelineRequest)
    (source_images : option (list (list Byte.byte)))
    (mask : option (list Byte.byte))
    : M (stage_result (list (list Byte.byte))) :=
  match action request, is_nonempty source_images with
  | Edit, false =>
      mret (Failed (StageError Generation "edit requires a source image"))
  | _, _ =>
      r ← attempt (submit_and_wait request (default [] source_images) mask);
      match r with
      | inl e => mret (Failed (StageError Generation (message_of e)))
      | inr artifacts => mret (Succeeded artifacts)
      end
  end.

(** Modelled from the spec: saving one artifact in the Save stage of
    [process_pipeline].  The artifact goes to object storage; when a
    metadata store is configured and answers, a record is written, and its
    absence or failure is skipped. *)
Definition save_one (request : ImagePipelineRequest)
    (storage : StorageService) (cosmos : option MetadataService)
    (artifact : list Byte.byte) : M (stage_result string) :=
  r ← attempt (upload storage artifact (folder_path (save_options request)));
  match r with
  | inl e => mret (Failed (StageError Save (message_of e)))
  | inr url =>
      match cosmos with
      | Some c => attempt (create_record c request url);; mret (Succeeded url)
      | None => mret (Succeeded url)
      end
  end.

(** Modelled from the spec: the Save stage of [process_pipeline]; the
    first artifact only unless [save_all], one outcome per artifact. *)
Definition save_stage (request : ImagePipelineRequest)
    (storage : option StorageService) (cosmos : option MetadataService)
    (artifacts : list (list Byte.byte)) : M (list (stage_result string)) :=
  match storage with
  | None => mret [Failed (StageError Save "storage service unavailable")]
  | Some st =>
      let chosen :=
        if save_all (save_options request) then artifacts else take 1 artifacts in
      mapM (save_one request st cosmos) chosen
  end.

(** Modelled from the spec: the Analysis stage of [process_pipeline] *)
Definition analysis_stage (artifacts : list (list Byte.byte))
    : M (stage_result analysis) :=
  r ← attempt (analyze artifacts);
  match r with
  | inl e => mret (Failed (StageError Analysis (message_of e)))
  | inr a => mret (Succeeded a)
  end.

(** Modelled from the spec: [ImagePipelineService.process_pipeline], the
    dispatcher of section 4.5, whose code is absent from the sources.
    Generation is mandatory; when it fails no further stage runs; when it
    succeeds Save and then Analysis run if enabled, each recording its own
    outcome. *)
Definition process_pipeline (request : ImagePipelineRequest)
    (azure_storage_service : option StorageService)
    (cosmos_service : option MetadataService)
    (source_images : option (list (list Byte.byte)))
    (mask : option (list Byte.byte)) : M ImagePipelineResponse :=
  g ← generation_stage request source_images mask;
  match g with
  | Failed e =>
      mret {| generationResult := Failed e;
              saveResult := None;
              analysisResult := None |}
  | Succeeded artifacts =>
      s ← (if enabled (save_options request)
           then r ← save_stage request azure_storage_service cosmos_service
                      artifacts;
                mret (Some r)
           else mret None);
      a ← (if analysis_enabled (analysis_options request)
           then r ← analysis_stage artifacts; mret (Some r)
           else mret None);
      mret {| generationResult := Succeeded artifacts;
              saveResult := s;
              analysisResult := a |}
  end.

(** The [/pipeline] endpoint, [process_image_pipeline] of
    [backend/api/endpoints/images.py]. *)
Definition process_image_pipeline (payload : string)
    (source_images image : option (list (list Byte.byte)))
    (mask : option (list Byte.byte))
    (azure_storage_service : StorageService)
    (cosmos_service : option MetadataService) : M ImagePipelineResponse :=
  match parse_raw payload with
  | inl detail => raise (HTTPException 422 detail)
  | inr pipeline_request =>
      let storage_service :=
        if enabled (save_options pipeline_request)
        then Some azure_storage_service else None in
      let uploaded_images :=
        if is_nonempty source_images || is_nonempty image
        then Some ((if is_nonempty source_images
                    then default [] source_images else []) ++
                   (if is_nonempty image then default [] image else []))%list
        else None in
      process_pipeline pipeline_request storage_service cosmos_service
        uploaded_images mask
  end.

(** The errors a response reports, stage by stage *)
Definition error_of {A} (r : stage_result A) : list stage_error :=
  match r with Failed e => [e] | Succeeded _ => [] end.

Definition generation_errors (r : ImagePipelineResponse) : list stage_error :=
  error_of (generationResult r).
Definition save_errors (r : ImagePipelineResponse) : list stage_error :=
  match saveResult r with
  | Some l => l ≫= error_of
  | None => []
  end.
Definition analysis_errors (r : ImagePipelineResponse) : list stage_error :=
  match analysisResult r with
  | Some a => error_of a
  | None => []
  end.

End Dispatcher.
End Pipeline.

(** ** The Flux endpoints *)

Module FluxEndpoints.

(** The request models of [backend/models/images.py], with the fields the
    endpoints read; an optional field holds a Python value.  The fields of
    [FluxEditRequest] are prefixed with [edit_], the two records sharing
    one name space. *)
Record FluxGenerationRequest := {
  prompt : string;
  model : string;
  width : value;
  height : value;
  aspect_ratio : value;
  prompt_upsampling : value;
  seed : value;
  safety_tolerance : value;
  output_format : value;
  raw : value;
  image_prompt : value;
  image_prompt_strength : value;
  webhook_url : value;
  webhook_secret : value
}.

Record FluxEditRequest := {
  edit_prompt : string;
  edit_model : string;
  edit_width : value;
  edit_height : value;
  edit_prompt_upsampling : value;
  edit_seed : value;
  edit_safety_tolerance : value;
  edit_output_format : value;
  edit_image_prompt : value;
  edit_image_prompt_strength : value;
  edit_webhook_url : value;
  edit_webhook_secret : value
}.

(** What can be raised inside the [try] block of an endpoint: an
    exception of the client or an [HTTPException] of the block itself, an
    [AttributeError] ([.get] on a value that is no dict), or the error of
    the response model refusing its data. *)
Inductive failure :=
| Py (e : exn)
| AttributeError
| ValidationError (detail : string).

Inductive attempt (A : Type) :=
| Returned (a : A)
| Failed (f : failure)
| NoFuel.
Arguments Returned {A} a.
Arguments Failed {A} f.
Arguments NoFuel {A}.

(** Computations of a [try] block *)
Definition T (A : Type) : Type := world → attempt A * world.

#[export] Instance T_ret : MRet T := λ A a w, (Returned a, w).
#[export] Instance T_bind : MBind T := λ A B k m w,
  match m w with
  | (Returned a, w') => k a w'
  | (Failed f, w') => (Failed f, w')
  | (NoFuel, w') => (NoFuel, w')
  end.

Definition fail {A} (f : failure) : T A := λ w, (Failed f, w).

(** A call into the client *)
Definition call {A} (m : M A) : T A := λ w,
  match m w with
  | (Done a, w') => (Returned a, w')
  | (Raised e, w') => (Failed (Py e), w')
  | (OutOfFuel, w') => (NoFuel, w')
  end.

(** [try: body except Exception as e: raise handler(e)] *)
Definition try_except {A} (body : T A) (handler : failure → exn) : M A := λ w,
  match body w with
  | (Returned a, w') => (Done a, w')
  | (Failed f, w') => (Raised (handler f), w')
  | (NoFuel, w') => (OutOfFuel, w')
  end.

(** [v.get(k)] on a value that should be a dict *)
Definition value_get (v : value) (k : string) : T value :=
  match v with
  | VDict d => mret (get d k)
  | _ => fail AttributeError
  end.

Section Endpoints.
Context (env : Env).
(** The response model [ImageGenerationResponse] and what it returns for
    the data it is given: the response, or the detail of a validation
    error *)
Context {Response : Type} (ImageGenerationResponse : dict → string + Response).
(** [base64.b64encode(data).decode('utf-8')] *)
Context (b64encode : list Byte.byte → string).
(** [str(v)] for a value and [str(e)] for an exception *)
Context (str_value : value → string) (str_error : failure → string).

Definition unavailable : string :=
  "Flux service is currently unavailable. Please check your BFL API key configuration.".

(** [flux_client.download_image(image_url)].  A URL that is no string:
    [requests] takes its [str], which for a JSON value that is no string
    never starts with [http], and raises a [RequestException]
    ([MissingSchema], [InvalidSchema] or [InvalidURL]) before anything is
    sent; the text of its message is not modelled. *)
Definition download (client : FluxClient) (image_url : value)
    : T (list Byte.byte) :=
  match image_url with
  | VStr url => call (download_image env client url)
  | _ => fail (Py (RequestException "Invalid URL"))
  end.

(** The part the two synchronous endpoints share, from "Process result"
    to the response; [what] is "generation" or "editing". *)
Definition process_result (what : string) (client : FluxClient)
    (request_prompt : string) (result : dict) : T Response :=
  if negb (eq_str (get result "status") "Ready") then
    fail (Py (HTTPException 500
                ("Flux " +:+ what +:+ " failed: " +:+
                 str_value (get_or result "status" (VStr "Unknown error")))))
  else
    image_url ← value_get (get_or result "result" (VDict ∅)) "sample";
    if negb (truthy image_url) then
      fail (Py (HTTPException 500 "No image URL in Flux response"))
    else
      image_data ← download client image_url;
      let image_b64 := b64encode image_data in
      let response_data : dict :=
        {[ "created" := get_or result "created_at" (VInt 0);
           "data" := VList [VDict {[ "b64_json" := VStr image_b64;
                                     "url" := image_url;
                                     "revised_prompt" := VStr request_prompt ]}] ]} in
      let response_data :=
        match result !! "usage" with
        | Some usage => <["usage" := usage]> response_data
        | None => response_data
        end in
      match ImageGenerationResponse response_data with
      | inr response => mret response
      | inl detail => fail (ValidationError detail)
      end.

(** The keyword arguments the generation endpoints pass on *)
Definition generation_kwargs (request : FluxGenerationRequest) : dict :=
  if String.eqb (model request) "flux-pro-ultra" then
    let aspect_ratio :=
      if negb (truthy (aspect_ratio request)) then VStr "16:9"
      else aspect_ratio request in
    update ∅
      [("aspect_ratio", aspect_ratio);
       ("prompt_upsampling", prompt_upsampling request);
       ("seed", seed request);
       ("safety_tolerance", safety_tolerance request);
       ("output_format", output_format request);
       ("raw", raw request);
       ("image_prompt", image_prompt request);
       ("image_prompt_strength", image_prompt_strength request);
       ("webhook_url", webhook_url request);
       ("webhook_secret", webhook_secret request)]
  else
    update ∅
      [("width", width request);
       ("height", height request);
       ("prompt_upsampling", prompt_upsampling request);
       ("seed", seed request);
       ("safety_tolerance", safety_tolerance request);
       ("output_format", output_format request);
       ("webhook_url", webhook_url request);
       ("webhook_secret", webhook_secret request)].

(** The keyword arguments the editing endpoint passes on *)
Definition edit_kwargs (request : FluxEditRequest) : dict :=
  update ∅
    [("width", edit_width request);
     ("height", edit_height request);
     ("prompt_upsampling", edit_prompt_upsampling request);
     ("seed", edit_seed request);
     ("safety_tolerance", edit_safety_tolerance request);
     ("output_format", edit_output_format request);
     ("image_prompt", edit_image_prompt request);
     ("image_prompt_strength", edit_image_prompt_strength request);
     ("webhook_url", edit_webhook_url request);
     ("webhook_secret", edit_webhook_secret request)].

Definition generate_flux_image (fuel : nat) (flux_client : option FluxClient)
    (request : FluxGenerationRequest) : M Response :=
  match flux_client with
  | None => raise (HTTPException 503 unavailable)
  | Some client =>
      try_except
        (let kwargs := generation_kwargs request in
         result ← call (generate_and_wait env fuel client (prompt request)
                          (model request) kwargs);
         process_result "generation" client (prompt request) result)
        (λ e, HTTPException 500 ("Flux generation failed: " +:+ str_error e))
  end.

Definition edit_flux_image (fuel : nat) (flux_client : option FluxClient)
    (request : FluxEditRequest) : M Response :=
  match flux_client with
  | None => raise (HTTPException 503 unavailable)
  | Some client =>
      try_except
        (if negb (String.eqb (edit_model request) "flux-kontext") then
           fail (Py (HTTPException 400
                       "Image editing requires flux-kontext model"))
         else if negb (truthy (edit_image_prompt request)) then
           fail (Py (HTTPException 400
                       "image_prompt is required for Flux Kontext editing"))
         else
           let kwargs := edit_kwargs request in
           result ← call (generate_and_wait env fuel client
                            (edit_prompt request) (edit_model request) kwargs);
           process_result "editing" client (edit_prompt request) result)
        (λ e, HTTPException 500 ("Flux editing failed: " +:+ str_error e))
  end.

Definition get_flux_task_status (flux_client : option FluxClient)
    (task_id : string) : M dict :=
  match flux_client with
  | None => raise (HTTPException 503 "Flux service is currently unavailable.")
  | Some client =>
      try_except (call (get_task_status env client (VStr task_id)))
        (λ e, HTTPException 500 ("Failed to get task status: " +:+ str_error e))
  end.

Definition generate_flux_image_async (flux_client : option FluxClient)
    (request : FluxGenerationRequest) : M dict :=
  match flux_client with
  | None => raise (HTTPException 503 unavailable)
  | Some client =>
      try_except
        (let kwargs := generation_kwargs request in
         result ← call (generate_image env client (prompt request)
                          (model request) kwargs);
         mret ({[ "task_id" := get result "id";
                  "status" := VStr "started";
                  "message" := VStr "Generation started successfully" ]} : dict))
        (λ e, HTTPException 500 ("Failed to start generation: " +:+ str_error e))
  end.

End Endpoints.
End FluxEndpoints.

(** ** File names *)

Module Images.

(** A Python string as the list of its code points *)
Definition char : Type := N.
Definition str : Type := list char.
Definition literal (s : string) : str :=
  N_of_ascii <$> String.list_ascii_of_string s.

Section Filename.

(** [Path(filename).stem] and [Path(filename).suffix] of [pathlib] *)
Context (stem_of suffix_of : str → str).

Definition underscore : char := 95%N.
Definition hyphen : char := 45%N.
Definition dot : char := 46%N.

(** The characters the pattern [[^a-zA-Z0-9_\-.]] leaves alone *)
Definition is_safe (c : char) : bool :=
  ((97 <=? c) && (c <=? 122) || (65 <=? c) && (c <=? 90) ||
   (48 <=? c) && (c <=? 57) ||
   (c =? underscore) || (c =? hyphen) || (c =? dot))%N.

(** [re.sub(r"[^a-zA-Z0-9_\-.]", "_", s)] *)
Definition replace_unsafe (s : str) : str :=
  (λ c, if is_safe c then c else underscore) <$> s.

(** [re.sub(r"_+", "_", s)] *)
Fixpoint squeeze_underscores (s : str) : str :=
  match s with
  | [] => []
  | c :: s' =>
      if (c =? underscore)%N then
        match s' with
        | c' :: _ =>
            if (c' =? underscore)%N then squeeze_underscores s'
            else c :: squeeze_underscores s'
        | [] => [c]
        end
      else c :: squeeze_underscores s'
  end.

Definition stripped (c : char) : bool := ((c =? underscore) || (c =? dot))%N.

Fixpoint lstrip (s : str) : str :=
  match s with
  | c :: s' => if stripped c then lstrip s' else s
  | [] => []
  end.

(** [s.strip("_.")] *)
Definition strip (s : str) : str :=
  reverse (lstrip (reverse (lstrip s))).

(** [s[:n]] *)
Definition slice_to (n : Z) (s : str) : str :=
  if 0 <=? n then take (Z.to_nat n) s
  else take (Z.to_nat (Z.of_nat (length s) + n)) s.

(** The stem after cleaning, before any truncation *)
Definition clean_stem (filename : str) : str :=
  let stem := stem_of filename in
  let stem := replace_unsafe stem in
  let stem := squeeze_underscores stem in
  let stem := strip stem in
  match stem with
  | [] => literal "generated_image"
  | _ => stem
  end.

Definition normalize_filename (filename : str) : str :=
  match filename with
  | [] => filename
  | _ =>
      let suffix := suffix_of filename in
      let stem := clean_stem filename in
      let normalized :=
        match suffix with [] => stem | _ => (stem ++ suffix)%list end in
      if (200 <? length normalized)%nat then
        let max_stem_length := 200 - Z.of_nat (length suffix) in
        let stem := slice_to max_stem_length stem in
        match suffix with [] => stem | _ => (stem ++ suffix)%list end
      else normalized
  end.

End Filename.
End Images.

(** ** Sample clients, backends and worlds *)

Module Sample.

Definition client : FluxClient := {| api_key := "secret" |}.

Definition sora : Sora.Sora :=
  {| Sora.resource_name := "studio"; Sora.deployment_name := "sora";
     Sora.api_key := "secret"; Sora.api_version := "preview" |}.

Definition start : world := World 0 [] [].

Definition with_status (s : string) : dict := {[ "status" := VStr s ]}.

Definition unsafe : dict :=
  <["error" := VStr "unsafe content"]> (with_status "Error").

Definition answer (code : Z) (d : dict) : net_result :=
  NetOk (Response code [] (Some d)).

(** A backend that plays back a script of answers, then repeats [last];
    it answers at once and sleeps are exact. *)
Definition scripted (script : list net_result) (last : net_result) : Env :=
  {| ticks_per_second := 1;
     respond := λ n _, default last (script !! n);
     latency := λ _, 0%N;
     oversleep := λ _, 0%N |}.

(** Two non-terminal answers, then [Ready] *)
Definition ready_on_third : Env :=
  scripted [answer 200 (with_status "Pending");
            answer 200 (with_status "Pending")]
           (answer 200 (with_status "Ready")).

Definition never_ready : Env := scripted [] (answer 200 (with_status "Pending")).

Definition jpeg_bytes : list Byte.byte := [Byte.xff; Byte.xd8; Byte.xff].

(** Collaborators of the pipeline: a generation backend that declares an
    error, one that delivers an image, a storage service that is down. *)
Definition refusing_backend : Pipeline.ImagePipelineRequest →
    list (list Byte.byte) → option (list Byte.byte) →
    Pipeline.C (list (list Byte.byte)) :=
  λ _ _ _ w, (inl (Flux_generation_failed (VStr "unsafe content")), w).

Definition delivering_backend : Pipeline.ImagePipelineRequest →
    list (list Byte.byte) → option (list Byte.byte) →
    Pipeline.C (list (list Byte.byte)) :=
  λ _ _ _ w, (inr [jpeg_bytes], w).

Definition broken_storage : Pipeline.StorageService :=
  {| Pipeline.upload := λ _ _ w, (inl (RequestException "storage down"), w) |}.

Definition no_analysis : list (list Byte.byte) → Pipeline.C Pipeline.analysis :=
  λ _ w, (inl (RequestException "analysis down"), w).

Definition message_of (e : exn) : string :=
  match e with
  | Flux_generation_failed (VStr detail) =>
      "Flux generation failed: " +:+ detail
  | RequestException msg => msg
  | _ => "error"
  end.

Definition pipeline_request (save : bool) : Pipeline.ImagePipelineRequest :=
  {| Pipeline.action := Pipeline.Generate;
     Pipeline.prompt := "a red bicycle";
     Pipeline.model := "flux-pro";
     Pipeline.parameters := ∅;
     Pipeline.save_options :=
       {| Pipeline.enabled := save; Pipeline.save_all := false;
          Pipeline.folder_path := "gallery" |};
     Pipeline.analysis_options := {| Pipeline.analysis_enabled := false |} |}.

End Sample.

(** ** Vocabulary of the properties *)

(** A binding that is absent or [None] *)
Definition void (d : dict) (k : string) : Prop :=
  d !! k = None ∨ d !! k = Some VNone.

(** [k] takes the value [v] in the payload when the caller leaves it out *)
Definition defaults_to (payload kwargs : dict) (k : string) (v : value) : Prop :=
  kwargs !! k = None → payload !! k = Some v.

(** The request [generate_image] sends for a model served at [name] *)
Definition submission (self : FluxClient) (prompt model name : string)
    (kwargs : dict) : request :=
  Request POST (base_url self +:+ "/v1/" +:+ name) [] (headers self)
    (JsonBody (generate_image_payload prompt model kwargs)).

(** The request [get_task_status] sends *)
Definition status_query (self : FluxClient) (task_id : value) : request :=
  Request GET (base_url self +:+ "/v1/get_result") [("id", task_id)]
    (headers self) NoBody.

(** The world after one HTTP call, and after one sleep *)
Definition after_call (env : Env) (rq : request) (w : world) : world :=
  {| now := now w + Z.of_N (latency env (length (trace w)));
     trace := trace w ++ [(rq, respond env (length (trace w)) rq)];
     sleeps := sleeps w |}.

Definition after_sleep (env : Env) (d : Z) (w : world) : world :=
  {| now := now w + d + Z.of_N (oversleep env (length (sleeps w)));
     trace := trace w;
     sleeps := sleeps w ++ [d] |}.

(** [ceil (a / b)] for a positive [b] *)
Definition ceil_div (a b : Z) : Z := - ((- a) / b).

(** The [n]-th call, when it is [rq], is answered with the JSON object [status] *)
Definition answers (env : Env) (n : nat) (rq : request) (status : dict) : Prop :=
  ∃ r, respond env n rq = NetOk r ∧ ok r = true ∧ body_json r = Some status.

Definition non_terminal (status : dict) : Prop :=
  eq_str (get status "status") "Ready" = false ∧
  eq_str (get status "status") "Error" = false.

(** An exchange whose answer is a status object declaring [Error] *)
Definition error_reply (x : request * net_result) (status : dict) : Prop :=
  ∃ r, x.2 = NetOk r ∧ ok r = true ∧ body_json r = Some status ∧
       eq_str (get status "status") "Error" = true.

(** The value of the form field [k] of a multipart request *)
Fixpoint form_field (k : string) (data : list (string * form_value))
    : option form_value :=
  match data with
  | [] => None
  | (k', v) :: rest => if String.eqb k k' then Some v else form_field k rest
  end.

(** The inpaint descriptors a request carries in its [inpaint_items] field *)
Definition inpaint_items (rq : request) : option (list value) :=
  match rq_body rq with
  | MultipartBody data _ =>
      match form_field "inpaint_items" data with
      | Some (FJson (VList items)) => Some items
      | _ => None
      end
  | _ => None
  end.

(** The crop bounds of a descriptor, if it has any *)
Definition crop_of (item : value) : option value :=
  match item with
  | VDict d => d !! "crop_bounds"
  | _ => None
  end.

(** The bounds of the whole frame: left 0.0, top 0.0, right 1.0, bottom 1.0 *)
Definition full_frame (v : value) : Prop :=
  ∃ d, v = VDict d ∧
       d !! "left_fraction" = Some (VFloat 0%Q) ∧
       d !! "top_fraction" = Some (VFloat 0%Q) ∧
       d !! "right_fraction" = Some (VFloat 1%Q) ∧
       d !! "bottom_fraction" = Some (VFloat 1%Q).

(** Every error a pipeline response reports sits in the field of its own
    stage and names that stage. *)
Definition captured (r : Pipeline.ImagePipelineResponse) : Prop :=
  Forall (λ e, Pipeline.err_stage e = Pipeline.Generation)
         (Pipeline.generation_errors r) ∧
  Forall (λ e, Pipeline.err_stage e = Pipeline.Save) (Pipeline.save_errors r) ∧
  Forall (λ e, Pipeline.err_stage e = Pipeline.Analysis)
         (Pipeline.analysis_errors r).

(** After a failed generation no other stage has run *)
Definition short_circuited (r : Pipeline.ImagePipelineResponse) : Prop :=
  match Pipeline.generationResult r with
  | Pipeline.Failed _ =>
      Pipeline.saveResult r = None ∧ Pipeline.analysisResult r = None
  | Pipeline.Succeeded _ => True
  end.

(** What a stage records for what its collaborator did: the result, or
    the error under the name of the stage with its message *)
Definition stage_outcome {A} (st : Pipeline.stage) (message_of : exn → string)
    (r : exn + A) : Pipeline.stage_result A :=
  match r with
  | inl e => Pipeline.Failed (Pipeline.StageError st (message_of e))
  | inr a => Pipeline.Succeeded a
  end.

(** The artifacts that are to be saved: all of them, or the first *)
Definition chosen (request : Pipeline.ImagePipelineRequest)
    (artifacts : list (list Byte.byte)) : list (list Byte.byte) :=
  if Pipeline.save_all (Pipeline.save_options request) then artifacts
  else take 1 artifacts.

(** The outcomes of a Save stage: without a storage service one failure;
    with one, an outcome per chosen artifact, in order, each what the
    upload of that artifact gave *)
Definition saved (message_of : exn → string)
    (request : Pipeline.ImagePipelineRequest)
    (storage : option Pipeline.StorageService)
    (artifacts : list (list Byte.byte))
    (l : list (Pipeline.stage_result string)) : Prop :=
  match storage with
  | None =>
      ∃ message,
        l = [Pipeline.Failed (Pipeline.StageError Pipeline.Save message)]
  | Some st =>
      Forall2
        (λ artifact s,
           ∃ w, s = stage_outcome Pipeline.Save message_of
                      (Pipeline.upload st artifact
                         (Pipeline.folder_path (Pipeline.save_options request))
                         w).1)
        (chosen request artifacts) l
  end.

(** What a response reports when the dispatcher is started in [w]: an
    edit without source image is refused under Generation and nothing else
    is reported; otherwise Generation is what the backend call gave, its
    error included, and after a success Save and Analysis are reported
    exactly when they are enabled, Analysis as the collaborator gave it. *)
Definition reported
    (submit_and_wait : Pipeline.ImagePipelineRequest → list (list Byte.byte) →
                       option (list Byte.byte) →
                       Pipeline.C (list (list Byte.byte)))
    (analyze : list (list Byte.byte) → Pipeline.C Pipeline.analysis)
    (message_of : exn → string)
    (request : Pipeline.ImagePipelineRequest)
    (storage : option Pipeline.StorageService)
    (source_images : option (list (list Byte.byte)))
    (mask : option (list Byte.byte)) (w : world)
    (r : Pipeline.ImagePipelineResponse) : Prop :=
  match Pipeline.action request, Pipeline.is_nonempty source_images with
  | Pipeline.Edit, false =>
      ∃ message,
        r = {| Pipeline.generationResult :=
                 Pipeline.Failed
                   (Pipeline.StageError Pipeline.Generation message);
               Pipeline.saveResult := None;
               Pipeline.analysisResult := None |}
  | _, _ =>
      let answer :=
        (submit_and_wait request (default [] source_images) mask w).1 in
      Pipeline.generationResult r
        = stage_outcome Pipeline.Generation message_of answer ∧
      match answer with
      | inl _ =>
          Pipeline.saveResult r = None ∧ Pipeline.analysisResult r = None
      | inr artifacts =>
          (if Pipeline.enabled (Pipeline.save_options request)
           then ∃ l, Pipeline.saveResult r = Some l ∧
                     saved message_of request storage artifacts l
           else Pipeline.saveResult r = None) ∧
          (if Pipeline.analysis_enabled (Pipeline.analysis_options request)
           then ∃ w2, Pipeline.analysisResult r =
                        Some (stage_outcome Pipeline.Analysis message_of
                                (analyze artifacts w2).1)
           else Pipeline.analysisResult r = None)
      end
  end.

(** What [Response.json] yields *)
Definition json_of (r : response) : outcome dict :=
  match body_json r with
  | Some d => Done d
  | None => Raised JSONDecodeError
  end.

(** ** Vocabulary of the further properties *)

(** The keys [generate_image] may send for a model: the prompt, the
    fields of the model, the two webhook parameters *)
Definition payload_keys (model : string) (kwargs : dict) : list string :=
  "prompt" :: (model_fields model kwargs).*1 ++ ["webhook_url"; "webhook_secret"].

(** What became of a status query: the exception it raises, if any *)
Definition reply_error (res : net_result) : option exn :=
  match res with
  | NetErr msg => Some (RequestException msg)
  | NetOk r =>
      if ok r then
        match body_json r with
        | Some _ => None
        | None => Some JSONDecodeError
        end
      else Some (HTTPError (status_code r))
  end.

(** Whether an outcome leaves the loop at its condition (no query pending) *)
Definition at_condition (o : outcome dict) : bool :=
  match o with
  | Raised (TimeoutError _ _) | OutOfFuel => true
  | _ => false
  end.

(** What a call that checks the status and decodes the body makes of an
    answer *)
Definition outcome_of_reply (res : net_result) : outcome dict :=
  match res with
  | NetErr msg => Raised (RequestException msg)
  | NetOk r => if ok r then json_of r else Raised (HTTPError (status_code r))
  end.

(** The files and the form fields other than [inpaint_items] that a
    multipart request carries *)
Definition attachments (rq : request) : list file_part :=
  match rq_body rq with
  | MultipartBody _ files => files
  | _ => []
  end.

Definition plain_fields (rq : request) : list (string * form_value) :=
  match rq_body rq with
  | MultipartBody data _ =>
      filter (λ kv, kv.1 ≠ "inpaint_items") data
  | _ => []
  end.


(** What [normalize_filename] promises of a stem: only characters the
    pattern keeps, no two underscores in a row, no underscore or dot at
    either end *)
Fixpoint has_double_underscore (s : Images.str) : bool :=
  match s with
  | c :: s' =>
      match s' with
      | c' :: _ =>
          (c =? Images.underscore)%N && (c' =? Images.underscore)%N
          || has_double_underscore s'
      | [] => false
      end
  | [] => false
  end.

Definition starts_clean (s : Images.str) : bool :=
  match head s with Some c => negb (Images.stripped c) | None => true end.

Definition ends_clean (s : Images.str) : bool :=
  match last s with Some c => negb (Images.stripped c) | None => true end.

(** Stem and suffix of a name that has no directory part: the name is
    split at its last dot, when that dot is neither its first nor its last
    character, as [pathlib] splits [report.final.pdf] into [report.final]
    and [.pdf] *)
Module Names.

Definition last_dot (name : Images.str) : option nat :=
  match list_find (λ c, c = Images.dot) (reverse name) with
  | Some (i, _) =>
      let k := (length name - S i)%nat in
      if (k =? 0)%nat || (i =? 0)%nat then None else Some k
  | None => None
  end.

Definition stem (name : Images.str) : Images.str :=
  match last_dot name with Some k => take k name | None => name end.

Definition suffix (name : Images.str) : Images.str :=
  match last_dot name with Some k => drop k name | None => [] end.

End Names.

(** A value as a payload carries it: not at all when it is [None] *)
Definition sent (v : value) : option value :=
  if is_none v then None else Some v.

(** The request [download_image] sends *)
Definition download_request (image_url : string) : request :=
  Request GET image_url [] [] NoBody.

(** The single entry of the [data] list of an image response *)
Definition image_entry (b64 url prompt : string) : value :=
  VDict {[ "b64_json" := VStr b64; "url" := VStr url;
           "revised_prompt" := VStr prompt ]}.

(** What leaves an endpoint when it raises: without a client a 503, and
    nothing has happened; with one, a 500 *)
Definition raises_503_or_500 {A} (flux_client : option FluxClient)
    (w : world) (run : outcome A * world) : Prop :=
  match flux_client with
  | None => ∃ detail, run = (Raised (HTTPException 503 detail), w)
  | Some _ => ∀ e, run.1 = Raised e → ∃ detail, e = HTTPException 500 detail
  end.

(** Requests, a backend and the library functions for the examples *)
Module Demo.

Definition alphabet : list ascii :=
  String.list_ascii_of_string
    "ABCDEFGHIJKLMNOPQRSTUVWXYZabcdefghijklmnopqrstuvwxyz0123456789+/".

Definition digit (n : N) : ascii :=
  default "="%char (alphabet !! N.to_nat (n mod 64)).

(** Base64 of a list of bytes *)
Fixpoint encode (data : list N) : list ascii :=
  match data with
  | a :: b :: c :: rest =>
      let n := (a * 65536 + b * 256 + c)%N in
      digit (n / 262144) :: digit (n / 4096) :: digit (n / 64) :: digit n
      :: encode rest
  | [a; b] =>
      let n := (a * 65536 + b * 256)%N in
      [digit (n / 262144); digit (n / 4096); digit (n / 64); "="%char]
  | [a] => [digit (a / 4); digit (a * 16); "="%char; "="%char]
  | [] => []
  end.

Definition b64encode (data : list Byte.byte) : string :=
  String.string_of_list_ascii (encode (Byte.to_N <$> data)).

Definition str_value (v : value) : string :=
  match v with VStr s => s | _ => "?" end.

Definition str_error (f : FluxEndpoints.failure) : string :=
  match f with
  | FluxEndpoints.Py (HTTPException status detail) =>
      pretty status +:+ ": " +:+ detail
  | FluxEndpoints.Py (RequestException msg) => msg
  | FluxEndpoints.ValidationError detail => detail
  | _ => "error"
  end.

(** A response model that accepts any data *)
Definition accept : dict → string + dict := inr.

Definition generation_request (model : string)
    : FluxEndpoints.FluxGenerationRequest :=
  {| FluxEndpoints.prompt := "a red bicycle";
     FluxEndpoints.model := model;
     FluxEndpoints.width := VNone;
     FluxEndpoints.height := VInt 768;
     FluxEndpoints.aspect_ratio := VNone;
     FluxEndpoints.prompt_upsampling := VNone;
     FluxEndpoints.seed := VNone;
     FluxEndpoints.safety_tolerance := VNone;
     FluxEndpoints.output_format := VNone;
     FluxEndpoints.raw := VNone;
     FluxEndpoints.image_prompt := VNone;
     FluxEndpoints.image_prompt_strength := VNone;
     FluxEndpoints.webhook_url := VNone;
     FluxEndpoints.webhook_secret := VNone |}.

Definition edit_request (model : string) (image : value)
    : FluxEndpoints.FluxEditRequest :=
  {| FluxEndpoints.edit_prompt := "make it blue";
     FluxEndpoints.edit_model := model;
     FluxEndpoints.edit_width := VNone;
     FluxEndpoints.edit_height := VNone;
     FluxEndpoints.edit_prompt_upsampling := VNone;
     FluxEndpoints.edit_seed := VNone;
     FluxEndpoints.edit_safety_tolerance := VNone;
     FluxEndpoints.edit_output_format := VNone;
     FluxEndpoints.edit_image_prompt := image;
     FluxEndpoints.edit_image_prompt_strength := VNone;
     FluxEndpoints.edit_webhook_url := VNone;
     FluxEndpoints.edit_webhook_secret := VNone |}.

Definition image_url : string := "https://delivery.example/sample.jpeg".

(** A backend that accepts the job, reports it ready at the first query
    and serves the image *)
Definition delivering : Env :=
  Sample.scripted
    [Sample.answer 200 {[ "id" := VStr "task-1" ]};
     Sample.answer 200
       {[ "status" := VStr "Ready";
          "result" := VDict {[ "sample" := VStr image_url ]} ]}]
    (NetOk (Response 200 Sample.jpeg_bytes None)).

End Demo.

(** * Properties *)

(** ** Running monadic code *)

Lemma bind_run {A B} (m : M A) (k : A → M B) (w : world) :
  (m ≫= k) w =
  match m w with
  | (Done a, w') => k a w'
  | (Raised e, w') => (Raised e, w')
  | (OutOfFuel, w') => (OutOfFuel, w')
  end.
Proof. reflexivity. Qed.

Lemma ret_run {A} (a : A) (w : world) : mret (M := M) a w = (Done a, w).
Proof. reflexivity. Qed.

Lemma requests_send_run env rq w :
  requests_send env rq w =
  match respond env (length (trace w)) rq with
  | NetOk r => (Done r, after_call env rq w)
  | NetErr msg => (Raised (RequestException msg), after_call env rq w)
  end.
Proof.
  unfold requests_send, after_call. rewrite bind_run. unfold http.
  by destruct (respond env _ _).
Qed.

(** ** The request body of [generate_image] *)

Section Payload.

Implicit Types (d payload kwargs : dict) (k : string) (v : value).

Lemma lookup_drop_none_Some d k v :
  drop_none d !! k = Some v ↔ d !! k = Some v ∧ is_none v = false.
Proof. unfold drop_none. by rewrite map_lookup_filter_Some. Qed.

Lemma lookup_drop_none_None d k :
  drop_none d !! k = None ↔ d !! k = None ∨ d !! k = Some VNone.
Proof.
  unfold drop_none. rewrite map_lookup_filter_None. split.
  - intros [H|H]; [by left|].
    destruct (d !! k) as [v|] eqn:E; [|by left].
    right. specialize (H v eq_refl). simpl in H.
    destruct v; simpl in H; congruence.
  - intros [H|H]; [by left|]. right. intros v Hv.
    rewrite H in Hv. by injection Hv as <-.
Qed.

Lemma lookup_add_if_given_ne k k' kwargs payload :
  k ≠ k' → add_if_given k' kwargs payload !! k = payload !! k.
Proof.
  intros. unfold add_if_given. case_match; [by rewrite lookup_insert_ne|done].
Qed.

Lemma void_insert d k k' v :
  (k' = k → v = VNone) → void d k → void (<[k' := v]> d) k.
Proof.
  intros Hv Hd. unfold void. destruct (decide (k' = k)) as [->|Hne].
  - rewrite lookup_insert_eq, Hv by done. by right.
  - by rewrite lookup_insert_ne.
Qed.

Lemma void_update d k (kvs : list (string * value)) :
  Forall (λ kv, kv.1 = k → kv.2 = VNone) kvs → void d k → void (update d kvs) k.
Proof.
  unfold update. intros Hall. revert d.
  induction Hall as [|kv kvs Hkv _ IH]; intros d Hd; simpl; [done|].
  apply IH. by apply void_insert.
Qed.

Lemma void_add_if_given d k k' kwargs :
  void kwargs k → void d k → void (add_if_given k' kwargs d) k.
Proof.
  intros Hk Hd. unfold add_if_given. case_match eqn:Ht; [|done].
  apply void_insert; [|done]. intros ->.
  unfold get in *. destruct Hk as [Hk|Hk]; rewrite Hk in *; done.
Qed.

Lemma model_fields_void model kwargs k :
  void kwargs k →
  Forall (λ kv, kv.1 = k → kv.2 = VNone ∨ kwargs !! k = None)
         (model_fields model kwargs).
Proof.
  intros Hk. unfold model_fields.
  repeat case_match;
    repeat (apply Forall_cons; split; [cbn [fst snd]; intros <-;
      unfold get_or, get; destruct Hk as [Hk|Hk]; rewrite Hk; cbn; auto|]);
    by apply Forall_nil.
Qed.

Lemma recognized_cases model :
  is_Some (model_endpoints !! model) →
  model = "flux-pro" ∨ model = "flux-pro-ultra" ∨ model = "flux-kontext".
Proof.
  unfold model_endpoints. intros [name Hname].
  destruct (decide (model = "flux-pro")); [by auto|].
  destruct (decide (model = "flux-kontext")); [by auto|].
  destruct (decide (model = "flux-pro-ultra")); [by auto|].
  cbn [list_to_map foldr uncurry] in Hname.
  rewrite !lookup_insert_ne in Hname by done. by rewrite lookup_empty in Hname.
Qed.
(** What [generate_image] puts on the wire: one POST of the payload *)
Lemma generate_image_sends env self prompt model kwargs name w :
  model_endpoints !! model = Some name →
  ∃ res,
    trace (generate_image env self prompt model kwargs w).2 =
    (trace w ++
     [(Request POST (base_url self +:+ "/v1/" +:+ name) [] (headers self)
         (JsonBody (generate_image_payload prompt model kwargs)), res)])%list.
Proof.
  intros Hname. unfold generate_image. rewrite Hname.
  set (payload := generate_image_payload prompt model kwargs).
  unfold requests_post_json, requests_send.
  rewrite !bind_run. unfold http at 1.
  destruct (respond env _ _) as [r|msg]; [|by eexists].
  rewrite ret_run, bind_run. unfold raise_for_status, json.
  destruct (ok r); [|by eexists].
  rewrite ret_run. destruct (body_json r); by eexists.
Qed.

(** Refutes membership of a literal in a list of other literals *)
Ltac not_listed H :=
  exfalso; repeat (apply elem_of_cons in H as [?|H]; [done|]);
  by apply elem_of_nil in H.

Ltac payload_default :=
  let H := fresh "Habsent" in
  intros H; unfold generate_image_payload;
  apply lookup_drop_none_Some; split; [|done];
  rewrite !lookup_add_if_given_ne by done;
  unfold update, model_fields; cbn [String.eqb Ascii.eqb Bool.eqb foldl fst snd];
  unfold get_or; rewrite H; cbn [default];
  repeat (rewrite lookup_insert_ne by done); by rewrite lookup_insert_eq.

Lemma payload_drops_none prompt model kwargs k :
  k ≠ "prompt" → void kwargs k →
  Forall (λ kv, kv.1 = k → kv.2 = VNone) (model_fields model kwargs) →
  generate_image_payload prompt model kwargs !! k = None.
Proof.
  intros Hk Hvoid Hfields. unfold generate_image_payload.
  apply lookup_drop_none_None. fold (void (add_if_given "webhook_secret" kwargs
    (add_if_given "webhook_url" kwargs
       (update {[ "prompt" := VStr prompt ]} (model_fields model kwargs)))) k).
  do 2 (apply void_add_if_given; [done|]).
  apply void_update; [done|]. left. by rewrite lookup_singleton_ne.
Qed.

(** C8: for every recognized model and every bag of keyword arguments,
    the payload of [generate_image] binds no key to [None]: an argument
    given as [None] is dropped, and so is an optional field that is left
    out; a field with a default takes it when it is left out (width and
    height 1024, safety tolerance 2, output format jpeg, aspect ratio 16:9
    for the ultra model, and so on); and this payload is what is posted. *)
Theorem generate_image_payload_has_no_null prompt model kwargs
    (Hmodel : is_Some (model_endpoints !! model)) :
  let payload := generate_image_payload prompt model kwargs in
  (∀ k v, payload !! k = Some v → v ≠ VNone) ∧
  (∀ k, k ≠ "prompt" → kwargs !! k = Some VNone → payload !! k = None) ∧
  (∀ k, k ∈ ["seed"; "image_prompt"; "webhook_url"; "webhook_secret"] →
        kwargs !! k = None → payload !! k = None) ∧
  (model = "flux-pro" ∨ model = "flux-kontext" →
     defaults_to payload kwargs "width" (VInt 1024) ∧
     defaults_to payload kwargs "height" (VInt 1024)) ∧
  (defaults_to payload kwargs "prompt_upsampling" (VBool false) ∧
   defaults_to payload kwargs "safety_tolerance" (VInt 2) ∧
   defaults_to payload kwargs "output_format" (VStr "jpeg")) ∧
  (model = "flux-pro-ultra" →
     defaults_to payload kwargs "aspect_ratio" (VStr "16:9") ∧
     defaults_to payload kwargs "raw" (VBool false)) ∧
  (model = "flux-pro-ultra" ∨ model = "flux-kontext" →
     defaults_to payload kwargs "image_prompt_strength" (VFloat (1 # 10)%Q)) ∧
  (∀ env self w, ∃ name res,
     model_endpoints !! model = Some name ∧
     trace (generate_image env self prompt model kwargs w).2 =
     (trace w ++
      [(Request POST (base_url self +:+ "/v1/" +:+ name) [] (headers self)
          (JsonBody payload), res)])%list).
Proof.
  intros payload. subst payload. split_and!.
  - intros k v [_ Hv]%lookup_drop_none_Some ->. done.
  - intros k Hk Hnone. apply payload_drops_none; [done|by right|].
    eapply Forall_impl; [apply (model_fields_void model kwargs k); by right|].
    intros kv Hkv Heq. destruct (Hkv Heq) as [?|?]; [done|congruence].
  - intros k Hin Habsent. apply payload_drops_none.
    + intros ->. by not_listed Hin.
    + by left.
    + unfold model_fields.
      repeat case_match;
        repeat (apply Forall_cons; split;
                [cbn [fst snd]; intros <-; unfold get, get_or;
                 rewrite ?Habsent; first [done | by not_listed Hin]|]);
        by apply Forall_nil.
  - intros [->| ->]; split; payload_default.
  - destruct (recognized_cases _ Hmodel) as [->|[->| ->]]; payload_default.
  - destruct (recognized_cases _ Hmodel) as [->|[->| ->]]; payload_default.
  - destruct (recognized_cases _ Hmodel) as [->|[->| ->]]; payload_default.
  - intros ->; split; payload_default.
  - intros [->| ->]; payload_default.
  - intros env self w. destruct Hmodel as [name Hname].
    destruct (generate_image_sends env self prompt model kwargs name w Hname)
      as [res Hres].
    by exists name, res.
Qed.

Lemma generate_image_payload_has_no_null_witness :
  is_Some (model_endpoints !! "flux-pro-ultra") ∧
  generate_image_payload "a red bicycle" "flux-pro-ultra"
    {[ "seed" := VNone ]} !! "seed" = None ∧
  generate_image_payload "a red bicycle" "flux-pro-ultra"
    {[ "seed" := VNone ]} !! "aspect_ratio" = Some (VStr "16:9").
Proof.
  assert (Hmodel : is_Some (model_endpoints !! "flux-pro-ultra"))
    by (vm_compute; eauto).
  split; [exact Hmodel|].
  destruct (generate_image_payload_has_no_null "a red bicycle" "flux-pro-ultra"
              {[ "seed" := VNone ]} Hmodel)
    as (_ & Hdrop & _ & _ & _ & Hultra & _).
  split.
  - apply Hdrop; [done|reflexivity].
  - apply Hultra; reflexivity.
Defined.

(** C1: the edit model [flux-kontext] called without [image_prompt].  No
    error is raised for the missing reference image: the payload is built
    without the key, posted, and the backend's answer is returned. *)
Theorem kontext_without_image_prompt_is_submitted :
  let env := Sample.scripted [] (Sample.answer 200 {[ "id" := VStr "task-1" ]}) in
  let run := generate_image env Sample.client "make the sky pink"
               "flux-kontext" ∅ Sample.start in
  generate_image_payload "make the sky pink" "flux-kontext" ∅
    !! "image_prompt" = None ∧
  run.1 = Done {[ "id" := VStr "task-1" ]} ∧
  length (trace run.2) = 1%nat.
Proof. vm_compute. done. Qed.

End Payload.
Section Polling.
Context (env : Env) (self : FluxClient) (task_id : value).
Context (max_wait_time poll_interval : Z).

Lemma get_task_status_run w :
  get_task_status env self task_id w =
  let w1 := after_call env (status_query self task_id) w in
  match respond env (length (trace w)) (status_query self task_id) with
  | NetErr msg => (Raised (RequestException msg), w1)
  | NetOk r =>
      if ok r then
        match body_json r with
        | Some d => (Done d, w1)
        | None => (Raised JSONDecodeError, w1)
        end
      else (Raised (HTTPError (status_code r)), w1)
  end.
Proof.
  unfold get_task_status, requests_get, requests_send, status_query, after_call.
  rewrite !bind_run. unfold http at 1.
  destruct (respond env _ _) as [r|msg]; [|done].
  rewrite ret_run, bind_run. unfold raise_for_status, json.
  destruct (ok r); [|done]. rewrite ret_run. by destruct (body_json r).
Qed.

Lemma wait_loop_S fuel start w :
  wait_loop env (S fuel) self task_id start max_wait_time poll_interval w =
  if now w - start <? max_wait_time then
    match get_task_status env self task_id w with
    | (Done status, w1) =>
        if eq_str (get status "status") "Ready" then (Done status, w1)
        else if eq_str (get status "status") "Error" then
          (Raised (Flux_generation_failed
                     (get_or status "error" (VStr "Unknown error"))), w1)
        else if poll_interval <? 0 then (Raised ValueError_sleep, w1)
        else wait_loop env fuel self task_id start max_wait_time poll_interval
               (after_sleep env poll_interval w1)
    | (Raised e, w1) => (Raised e, w1)
    | (OutOfFuel, w1) => (OutOfFuel, w1)
    end
  else (Raised (TimeoutError task_id max_wait_time), w).
Proof.
  cbn [wait_loop]. rewrite bind_run. unfold time_time at 1.
  destruct (now w - start <? max_wait_time); [|done].
  rewrite bind_run. destruct (get_task_status env self task_id w) as [[status|e|] w1]; try done.
  destruct (eq_str (get status "status") "Ready"); [done|].
  destruct (eq_str (get status "status") "Error"); [done|].
  rewrite bind_run. unfold time_sleep at 1, after_sleep.
  by destruct (poll_interval <? 0).
Qed.


Lemma wait_for_completion_run fuel w :
  wait_for_completion env fuel self task_id max_wait_time poll_interval w =
  wait_loop env fuel self task_id (now w) max_wait_time poll_interval w.
Proof. reflexivity. Qed.

Lemma ceil_div_gt a b i : 0 < b → i * b < a → i < ceil_div a b.
Proof.
  intros Hb Hi. unfold ceil_div.
  pose proof (Z.div_mod (- a) b). pose proof (Z.mod_pos_bound (- a) b). nia.
Qed.

Lemma length_trace_after_call rq w :
  length (trace (after_call env rq w)) = S (length (trace w)).
Proof. unfold after_call. cbn [trace]. rewrite length_app. simpl. lia. Qed.

(** The number of queries a run of the loop adds, when the [i]-th check
    of the condition happens no earlier than [i] poll intervals in. *)
Lemma wait_loop_queries fuel : ∀ start w i,
  0 < poll_interval → 0 ≤ i → i * poll_interval ≤ now w - start →
  Z.of_nat (length (trace
    (wait_loop env fuel self task_id start max_wait_time poll_interval w).2)) ≤
  Z.of_nat (length (trace w)) + Z.max 0 (ceil_div max_wait_time poll_interval - i).
Proof.
  induction fuel as [|fuel IH]; intros start w i Hpoll Hi Hnow.
  - cbn. lia.
  - rewrite wait_loop_S.
    destruct (now w - start <? max_wait_time) eqn:Hguard; [|cbn; lia].
    apply Z.ltb_lt in Hguard.
    assert (i < ceil_div max_wait_time poll_interval)
      by (apply ceil_div_gt; lia).
    rewrite get_task_status_run. cbn zeta.
    pose proof (length_trace_after_call (status_query self task_id) w) as Hlen.
    destruct (respond env _ _) as [r|msg]; [|cbn [snd]; lia].
    destruct (ok r); [|cbn [snd]; lia].
    destruct (body_json r) as [status|]; [|cbn [snd]; lia].
    destruct (eq_str _ "Ready"); [cbn [snd]; lia|].
    destruct (eq_str _ "Error"); [cbn [snd]; lia|].
    destruct (poll_interval <? 0); [cbn [snd]; lia|].
    etrans; [apply (IH _ _ (i + 1)); [done|lia|]|].
    + unfold after_sleep, after_call. cbn [now trace sleeps]. lia.
    + unfold after_sleep. cbn [trace]. lia.
Qed.

(** With a positive poll interval the loop ends by itself: enough fuel
    always yields a result or an exception. *)
Lemma wait_loop_terminates fuel : ∀ start w i,
  0 < poll_interval → 0 ≤ i → i * poll_interval ≤ now w - start →
  Z.max 0 (ceil_div max_wait_time poll_interval - i) < Z.of_nat fuel →
  (wait_loop env fuel self task_id start max_wait_time poll_interval w).1
  ≠ OutOfFuel.
Proof.
  induction fuel as [|fuel IH]; intros start w i Hpoll Hi Hnow Hfuel; [lia|].
  rewrite wait_loop_S.
  destruct (now w - start <? max_wait_time) eqn:Hguard; [|done].
  apply Z.ltb_lt in Hguard.
  assert (i < ceil_div max_wait_time poll_interval)
    by (apply ceil_div_gt; lia).
  rewrite get_task_status_run. cbn zeta.
  destruct (respond env _ _) as [r|msg]; [|done].
  destruct (ok r); [|done].
  destruct (body_json r) as [status|]; [|done].
  destruct (eq_str _ "Ready"); [done|].
  destruct (eq_str _ "Error"); [done|].
  destruct (poll_interval <? 0); [done|].
  apply (IH _ _ (i + 1)); [done|lia| |lia].
  unfold after_sleep, after_call. cbn [now trace sleeps]. lia.
Qed.


Lemma eq_str_inj v a b : eq_str v a = true → eq_str v b = true → a = b.
Proof.
  destruct v; try done. cbn. intros Ha%String.eqb_eq Hb%String.eqb_eq.
  congruence.
Qed.

Lemma get_task_status_answers w status :
  answers env (length (trace w)) (status_query self task_id) status →
  get_task_status env self task_id w =
  (Done status, after_call env (status_query self task_id) w).
Proof.
  intros (r & Hr & Hok & Hjson). rewrite get_task_status_run. cbn zeta.
  by rewrite Hr, Hok, Hjson.
Qed.

(** In every run of the loop, an exchange that reports [Error] is the
    last one, and the run ends with that error. *)
Lemma wait_loop_error fuel : ∀ start w,
  let run := wait_loop env fuel self task_id start max_wait_time poll_interval w in
  ∃ new, trace run.2 = (trace w ++ new)%list ∧
    ∀ i x status, new !! i = Some x → error_reply x status →
      S i = length new ∧
      run.1 = Raised (Flux_generation_failed
                        (get_or status "error" (VStr "Unknown error"))).
Proof.
  induction fuel as [|fuel IH]; intros start w run; subst run.
  - exists []. cbn. split; [by rewrite app_nil_r|]. intros i x status Hi. done.
  - rewrite wait_loop_S.
    destruct (now w - start <? max_wait_time).
    2:{ exists []. cbn. split; [by rewrite app_nil_r|]. intros i x status Hi. done. }
    rewrite get_task_status_run. cbn zeta.
    set (q := status_query self task_id).
    assert (Hone : ∀ (o : outcome dict),
      (∀ status, error_reply (q, respond env (length (trace w)) q) status →
         o = Raised (Flux_generation_failed
                       (get_or status "error" (VStr "Unknown error")))) →
      ∃ new, trace (o, after_call env q w).2 = (trace w ++ new)%list ∧
        ∀ i x status, new !! i = Some x → error_reply x status →
          S i = length new ∧
          (o, after_call env q w).1 =
          Raised (Flux_generation_failed
                    (get_or status "error" (VStr "Unknown error")))).
    { intros o Ho. exists [(q, respond env (length (trace w)) q)].
      split; [done|]. intros [|i] x status Hi Herr; [|done].
      injection Hi as <-. split; [done|]. by apply Ho. }
    destruct (respond env (length (trace w)) q) as [r|msg] eqn:Hr.
    2:{ apply Hone. by intros status (r & [=] & _). }
    destruct (ok r) eqn:Hok.
    2:{ apply Hone. intros status (r' & [= <-] & Hok' & _). congruence. }
    destruct (body_json r) as [status|] eqn:Hjson.
    2:{ apply Hone. intros status (r' & [= <-] & _ & Hjson' & _). congruence. }
    destruct (eq_str (get status "status") "Ready") eqn:Hready.
    { apply Hone. intros status' (r' & [= <-] & _ & Hjson' & Herr).
      assert (status' = status) as -> by congruence.
      by pose proof (eq_str_inj _ _ _ Hready Herr). }
    destruct (eq_str (get status "status") "Error") eqn:Herror.
    { apply Hone. intros status' (r' & [= <-] & _ & Hjson' & Herr). congruence. }
    assert (Hnot : ∀ status', ¬ error_reply (q, NetOk r) status').
    { intros status' (r' & [= <-] & _ & Hjson' & Herr). congruence. }
    destruct (poll_interval <? 0).
    { apply Hone. intros status' Herr. by destruct (Hnot status'). }
    destruct (IH start (after_sleep env poll_interval (after_call env q w)))
      as (new & Htrace & Hnew).
    exists ((q, NetOk r) :: new). split.
    + rewrite Htrace. unfold after_sleep, after_call. cbn [trace].
      rewrite Hr. by rewrite <- app_assoc.
    + intros [|i] x status' Hi Herr.
      * injection Hi as <-. by destruct (Hnot status').
      * destruct (Hnew i x status' Hi Herr) as [Hlen Hrun].
        split; [cbn; lia|done].
Qed.


Lemma wait_loop_timeout fuel start w :
  max_wait_time ≤ now w - start →
  wait_loop env (S fuel) self task_id start max_wait_time poll_interval w =
  (Raised (TimeoutError task_id max_wait_time), w).
Proof.
  intros Hlate. rewrite wait_loop_S.
  by destruct (Z.ltb_spec (now w - start) max_wait_time); [lia|].
Qed.

Lemma wait_loop_ready fuel start w status :
  now w - start < max_wait_time →
  answers env (length (trace w)) (status_query self task_id) status →
  eq_str (get status "status") "Ready" = true →
  wait_loop env (S fuel) self task_id start max_wait_time poll_interval w =
  (Done status, after_call env (status_query self task_id) w).
Proof.
  intros Hguard Hanswer Hready. rewrite wait_loop_S.
  destruct (Z.ltb_spec (now w - start) max_wait_time); [|lia].
  by rewrite (get_task_status_answers _ _ Hanswer), Hready.
Qed.

Lemma wait_loop_continue fuel start w status :
  now w - start < max_wait_time →
  answers env (length (trace w)) (status_query self task_id) status →
  non_terminal status →
  0 ≤ poll_interval →
  wait_loop env (S fuel) self task_id start max_wait_time poll_interval w =
  wait_loop env fuel self task_id start max_wait_time poll_interval
    (after_sleep env poll_interval
       (after_call env (status_query self task_id) w)).
Proof.
  intros Hguard Hanswer [Hready Herror] Hpoll. rewrite wait_loop_S.
  destruct (Z.ltb_spec (now w - start) max_wait_time); [|lia].
  rewrite (get_task_status_answers _ _ Hanswer), Hready, Herror.
  by destruct (Z.ltb_spec poll_interval 0); [lia|].
Qed.

(** C3, as the code has it: when the first two queries find the task
    non-terminal and the third finds it [Ready], the poll interval is not
    negative and less than [max_wait_time] has elapsed when the loop
    condition is checked before the third query (two poll intervals plus
    what the first two queries and sleeps took beyond that), the call
    returns the third status after exactly three queries, at least two
    poll intervals after it started.  For a positive poll interval and a
    non-negative [max_wait_time], no run makes more than
    [ceil (max_wait_time / poll_interval) + 1] queries, and the loop ends
    by itself. *)
Theorem wait_for_completion_ready_on_third_query w :
  (∀ fuel s1 s2 s3,
     let n := length (trace w) in
     let m := length (sleeps w) in
     let q := status_query self task_id in
     answers env n q s1 → non_terminal s1 →
     answers env (S n) q s2 → non_terminal s2 →
     answers env (S (S n)) q s3 → eq_str (get s3 "status") "Ready" = true →
     0 ≤ poll_interval →
     Z.of_N (latency env n) + Z.of_N (latency env (S n)) +
       Z.of_N (oversleep env m) + Z.of_N (oversleep env (S m)) +
       2 * poll_interval < max_wait_time →
     let run := wait_for_completion env (3 + fuel) self task_id
                  max_wait_time poll_interval w in
     run.1 = Done s3 ∧
     length (trace run.2) = (length (trace w) + 3)%nat ∧
     2 * poll_interval ≤ now run.2 - now w) ∧
  (∀ fuel, 0 < poll_interval → 0 ≤ max_wait_time →
     let run := wait_for_completion env fuel self task_id
                  max_wait_time poll_interval w in
     Z.of_nat (length (trace run.2)) - Z.of_nat (length (trace w)) ≤
       ceil_div max_wait_time poll_interval + 1 ∧
     (ceil_div max_wait_time poll_interval < Z.of_nat fuel →
      run.1 ≠ OutOfFuel)).
Proof.
  split.
  - intros fuel s1 s2 s3 n m q. subst q.
    intros H1 Hn1 H2 Hn2 H3 Hready Hpoll Htime run.
    subst run. rewrite wait_for_completion_run.
    change (3 + fuel)%nat with (S (S (S fuel))).
    rewrite (wait_loop_continue _ _ _ s1); [|lia|done..].
    set (w1 := after_sleep env poll_interval
                 (after_call env (status_query self task_id) w)).
    assert (Hlen1 : length (trace w1) = S n)
      by apply length_trace_after_call.
    assert (Hnow1 : now w1 = now w + Z.of_N (latency env n) + poll_interval
                             + Z.of_N (oversleep env m)) by done.
    assert (Hsl1 : length (sleeps w1) = S m).
    { unfold w1, after_sleep, after_call. cbn [sleeps].
      rewrite length_app. cbn. lia. }
    rewrite (wait_loop_continue _ _ _ s2); [|lia|by rewrite Hlen1|done..].
    set (w2 := after_sleep env poll_interval
                 (after_call env (status_query self task_id) w1)).
    assert (Hlen2 : length (trace w2) = S (S n)).
    { unfold w2, after_sleep. cbn [trace].
      by rewrite length_trace_after_call, Hlen1. }
    assert (Hnow2 : now w2 = now w1 + Z.of_N (latency env (S n))
                             + poll_interval + Z.of_N (oversleep env (S m))).
    { unfold w2, after_sleep, after_call. cbn [now trace sleeps].
      by rewrite Hlen1, Hsl1. }
    rewrite (wait_loop_ready _ _ _ s3); [|lia|by rewrite Hlen2|done].
    cbn [fst snd]. split; [done|]. split.
    + rewrite length_trace_after_call, Hlen2. subst n. lia.
    + unfold after_call. cbn [now]. lia.
  - intros fuel Hpoll Hwait run. subst run. rewrite wait_for_completion_run.
    assert (0 ≤ ceil_div max_wait_time poll_interval).
    { destruct (decide (max_wait_time = 0)) as [->|].
      - unfold ceil_div. cbn. by rewrite Z.div_0_l by lia.
      - pose proof (ceil_div_gt max_wait_time poll_interval 0). lia. }
    split.
    + pose proof (wait_loop_queries fuel (now w) w 0 Hpoll) as Hq. lia.
    + intros Hfuel. apply (wait_loop_terminates fuel (now w) w 0); lia.
Qed.

(** C4: with a positive [max_wait_time] shorter than the poll interval
    and a backend that never reports a terminal status, exactly one
    status query is made and the call raises [TimeoutError]. *)
Theorem wait_for_completion_short_wait fuel w :
  0 < max_wait_time → max_wait_time < poll_interval →
  (∀ n, ∃ status,
     answers env n (status_query self task_id) status ∧ non_terminal status) →
  let run := wait_for_completion env (2 + fuel) self task_id
               max_wait_time poll_interval w in
  run.1 = Raised (TimeoutError task_id max_wait_time) ∧
  length (trace run.2) = S (length (trace w)) ∧
  ∃ res, trace run.2 = (trace w ++ [(status_query self task_id, res)])%list.
Proof.
  intros Hpos Hshort Hnever run. subst run.
  rewrite wait_for_completion_run. change (2 + fuel)%nat with (S (S fuel)).
  destruct (Hnever (length (trace w))) as (status & Hanswer & Hnon).
  rewrite (wait_loop_continue _ _ _ status); [|lia|done|done|lia].
  rewrite wait_loop_timeout.
  - cbn [fst snd]. split; [done|]. split.
    + apply length_trace_after_call.
    + by eexists.
  - unfold after_sleep, after_call. cbn [now]. lia.
Qed.

(** C5: in every run, a status query answered with [Error] is the last
    exchange of the run, and the run ends in the failure that carries the
    backend's error detail: nothing is queried after it. *)
Theorem backend_error_is_final fuel w i x status :
  let run := wait_for_completion env fuel self task_id
               max_wait_time poll_interval w in
  trace run.2 !! (length (trace w) + i)%nat = Some x →
  error_reply x status →
  length (trace run.2) = S (length (trace w) + i) ∧
  run.1 = Raised (Flux_generation_failed
                    (get_or status "error" (VStr "Unknown error"))).
Proof.
  intros run. subst run. rewrite wait_for_completion_run.
  destruct (wait_loop_error fuel (now w) w) as (new & Htrace & Hnew).
  rewrite Htrace. intros Hx Herr.
  rewrite lookup_app_r in Hx by lia.
  replace (length (trace w) + i - length (trace w))%nat with i in Hx by lia.
  destruct (Hnew i x status Hx Herr) as [Hlen Hrun].
  split; [|done]. rewrite length_app. lia.
Qed.

(** C10: with [max_wait_time] zero or negative the call raises
    [TimeoutError] at once; the world is untouched, so no status query was
    made. *)
Theorem wait_for_completion_no_wait fuel w :
  max_wait_time ≤ 0 →
  wait_for_completion env (S fuel) self task_id max_wait_time poll_interval w =
  (Raised (TimeoutError task_id max_wait_time), w).
Proof.
  intros Hwait. rewrite wait_for_completion_run.
  apply wait_loop_timeout. lia.
Qed.

End Polling.

Lemma never_ready_never_terminal self task_id n :
  ∃ status,
    answers Sample.never_ready n (status_query self task_id) status ∧
    non_terminal status.
Proof.
  exists (Sample.with_status "Pending"). split; [|by vm_compute].
  by exists (Response 200 [] (Some (Sample.with_status "Pending"))).
Qed.

Lemma wait_for_completion_ready_on_third_query_witness :
  let run := wait_for_completion Sample.ready_on_third 3 Sample.client
               (VStr "task-1") 300 5 Sample.start in
  run.1 = Done (Sample.with_status "Ready") ∧
  length (trace run.2) = 3%nat ∧
  10 ≤ now run.2 ∧
  Z.of_nat (length (trace run.2)) ≤ 61.
Proof.
  destruct (wait_for_completion_ready_on_third_query Sample.ready_on_third
              Sample.client (VStr "task-1") 300 5 Sample.start)
    as [Hthird Hbound].
  destruct (Hthird 0%nat (Sample.with_status "Pending")
              (Sample.with_status "Pending") (Sample.with_status "Ready"))
    as (Hrun & Hlen & Hnow).
  - by exists (Response 200 [] (Some (Sample.with_status "Pending"))).
  - by vm_compute.
  - by exists (Response 200 [] (Some (Sample.with_status "Pending"))).
  - by vm_compute.
  - by exists (Response 200 [] (Some (Sample.with_status "Ready"))).
  - by vm_compute.
  - lia.
  - by vm_compute.
  - destruct (Hbound 3%nat) as [Hq _]; [lia..|].
    cbn zeta. split; [exact Hrun|]. split; [exact Hlen|]. split.
    + change (now Sample.start) with 0 in Hnow.
      change (3 + 0)%nat with 3%nat in Hnow. lia.
    + change (ceil_div 300 5) with 60 in Hq.
      change (length (trace Sample.start)) with 0%nat in Hq. lia.
Defined.

(** A backend that would report [Ready] on the third query, polled with
    [max_wait_time = poll_interval = 5]: the second check of the loop
    condition finds five seconds elapsed, and the call times out after a
    single query. *)
Lemma ready_on_third_can_time_out_first :
  let q := status_query Sample.client (VStr "task-1") in
  let run := wait_for_completion Sample.ready_on_third 10 Sample.client
               (VStr "task-1") 5 5 Sample.start in
  (respond Sample.ready_on_third 0 q = Sample.answer 200 (Sample.with_status "Pending") ∧
   respond Sample.ready_on_third 1 q = Sample.answer 200 (Sample.with_status "Pending") ∧
   respond Sample.ready_on_third 2 q = Sample.answer 200 (Sample.with_status "Ready")) ∧
  run.1 = Raised (TimeoutError (VStr "task-1") 5) ∧
  length (trace run.2) = 1%nat.
Proof. by vm_compute. Qed.

Lemma wait_for_completion_short_wait_witness :
  let run := wait_for_completion Sample.never_ready 2 Sample.client
               (VStr "task-1") 3 5 Sample.start in
  0 < 3 ∧ 3 < 5 ∧
  run.1 = Raised (TimeoutError (VStr "task-1") 3) ∧
  length (trace run.2) = 1%nat.
Proof.
  destruct (wait_for_completion_short_wait Sample.never_ready Sample.client
              (VStr "task-1") 3 5 0%nat Sample.start)
    as (Hrun & Hlen & _).
  - lia.
  - lia.
  - apply never_ready_never_terminal.
  - cbn zeta. split; [lia|]. split; [lia|]. split; [exact Hrun|exact Hlen].
Defined.

Lemma backend_error_is_final_witness :
  let env := Sample.scripted [Sample.answer 200 (Sample.with_status "Pending");
                              Sample.answer 200 Sample.unsafe]
               (Sample.answer 200 (Sample.with_status "Ready")) in
  let run := wait_for_completion env 10 Sample.client (VStr "task-1") 300 5
               Sample.start in
  length (trace run.2) = 2%nat ∧
  run.1 = Raised (Flux_generation_failed (VStr "unsafe content")).
Proof.
  intros env run.
  apply (backend_error_is_final env Sample.client (VStr "task-1") 300 5 10
           Sample.start 1%nat
           (status_query Sample.client (VStr "task-1"),
            Sample.answer 200 Sample.unsafe)
           Sample.unsafe).
  - by vm_compute.
  - exists (Response 200 [] (Some Sample.unsafe)). by vm_compute.
Defined.

Lemma wait_for_completion_no_wait_witness :
  0 ≤ 0 ∧ -5 ≤ 0 ∧
  wait_for_completion Sample.ready_on_third 1 Sample.client (VStr "task-1")
    0 5 Sample.start =
  (Raised (TimeoutError (VStr "task-1") 0), Sample.start) ∧
  wait_for_completion Sample.ready_on_third 1 Sample.client (VStr "task-1")
    (-5) 5 Sample.start =
  (Raised (TimeoutError (VStr "task-1") (-5)), Sample.start).
Proof.
  split; [lia|]. split; [lia|]. split.
  - apply wait_for_completion_no_wait. lia.
  - apply wait_for_completion_no_wait. lia.
Defined.

(** ** Submitting and downloading *)

Section Coordinator.
Context (env : Env) (self : FluxClient).

Lemma generate_image_answers prompt model kwargs name result w :
  model_endpoints !! model = Some name →
  answers env (length (trace w)) (submission self prompt model name kwargs)
    result →
  generate_image env self prompt model kwargs w =
  (Done result, after_call env (submission self prompt model name kwargs) w).
Proof.
  intros Hname (r & Hr & Hok & Hjson).
  unfold generate_image. rewrite Hname.
  unfold requests_post_json, requests_send. rewrite !bind_run.
  unfold http at 1. fold (submission self prompt model name kwargs).
  rewrite Hr, ret_run, bind_run. unfold raise_for_status, json.
  rewrite Hok, ret_run, Hjson. unfold after_call. by rewrite Hr.
Qed.

(** C7: when the backend accepts the submission but its answer carries no
    task identifier ([id] absent, [None], empty or otherwise false),
    [generate_and_wait] raises "No task ID returned from Flux API"; the
    submission is the only exchange of the run, so no status query and no
    sleep took place. *)
Theorem generate_and_wait_no_task_id fuel prompt model kwargs name result w :
  model_endpoints !! model = Some name →
  answers env (length (trace w)) (submission self prompt model name kwargs)
    result →
  truthy (get result "id") = false →
  let run := generate_and_wait env fuel self prompt model kwargs w in
  run.1 = Raised No_task_id ∧
  (∃ res, trace run.2 =
          (trace w ++ [(submission self prompt model name kwargs, res)])%list) ∧
  sleeps run.2 = sleeps w.
Proof.
  intros Hname Hanswer Hid run. subst run.
  unfold generate_and_wait. rewrite bind_run.
  rewrite (generate_image_answers _ _ _ _ _ _ Hname Hanswer).
  rewrite Hid. cbn [negb fst snd]. unfold raise. cbn [fst snd].
  split; [done|]. split; [by eexists|done].
Qed.

(** C6, as the code has it: [download_image] sends one GET for the URL
    with no parameters and no headers, so without the client's
    authorization header; a transport failure or a status code from 400 to
    599 raises, and any other answer returns exactly the body. *)
Theorem download_image_plain_get image_url w :
  let rq := Request GET image_url [] [] NoBody in
  let res := respond env (length (trace w)) rq in
  let run := download_image env self image_url w in
  trace run.2 = (trace w ++ [(rq, res)])%list ∧
  run.1 = match res with
          | NetErr msg => Raised (RequestException msg)
          | NetOk r =>
              if (400 <=? status_code r) && (status_code r <? 600)
              then Raised (HTTPError (status_code r))
              else Done (content r)
          end.
Proof.
  intros rq res run. subst rq res run.
  unfold download_image, requests_get, requests_send. rewrite !bind_run.
  unfold http. destruct (respond env _ _) as [r|msg]; [|by split].
  rewrite ret_run, bind_run. unfold raise_for_status, ok.
  by destruct ((400 <=? status_code r) && (status_code r <? 600)); split.
Qed.

End Coordinator.

Lemma generate_and_wait_no_task_id_witness :
  let quiet := Sample.scripted [] (Sample.answer 200 ∅) in
  let blank := Sample.scripted [] (Sample.answer 200 {[ "id" := VStr "" ]}) in
  let absent := generate_and_wait quiet 10 Sample.client "a red bicycle"
                  "flux-pro" ∅ Sample.start in
  let empty := generate_and_wait blank 10 Sample.client "a red bicycle"
                 "flux-pro" ∅ Sample.start in
  (absent.1 = Raised No_task_id ∧ sleeps absent.2 = []) ∧
  (empty.1 = Raised No_task_id ∧ sleeps empty.2 = []).
Proof.
  intros quiet blank absent empty. split.
  - destruct (generate_and_wait_no_task_id quiet Sample.client 10
                "a red bicycle" "flux-pro" ∅ "flux-pro" ∅ Sample.start)
      as (Hrun & _ & Hsleeps).
    + reflexivity.
    + by exists (Response 200 [] (Some ∅)).
    + reflexivity.
    + split; [exact Hrun|exact Hsleeps].
  - destruct (generate_and_wait_no_task_id blank Sample.client 10
                "a red bicycle" "flux-pro" ∅ "flux-pro"
                {[ "id" := VStr "" ]} Sample.start)
      as (Hrun & _ & Hsleeps).
    + reflexivity.
    + by exists (Response 200 [] (Some {[ "id" := VStr "" ]})).
    + reflexivity.
    + split; [exact Hrun|exact Hsleeps].
Defined.

(** The download of a result: the client holds an authorization header,
    the request carries no header at all, and an answer with status 300,
    which is not a 2xx, still returns the body. *)
Lemma download_image_unauthenticated :
  let env := Sample.scripted [] (NetOk (Response 300 Sample.jpeg_bytes None)) in
  let run := download_image env Sample.client
               "https://delivery.bfl.ai/results/sample.jpeg" Sample.start in
  headers Sample.client =
    [("Authorization", "Bearer secret"); ("Content-Type", "application/json")] ∧
  (rq_headers <$> (fst <$> trace run.2)) = [[]] ∧
  run.1 = Done Sample.jpeg_bytes.
Proof. by vm_compute. Qed.

(** ** The two submission attempts of the video client *)

Section Video.
Context (env : Env) (self : Sora.Sora).

Lemma item_no_crop_has_no_bounds filename :
  crop_of (Sora.item_no_crop filename) = None.
Proof. reflexivity. Qed.

Lemma item_with_crop_is_full_frame filename :
  ∃ c, crop_of (Sora.item_with_crop filename) = Some c ∧ full_frame c.
Proof.
  exists Sora.crop_bounds. split; [reflexivity|].
  eexists. split; [reflexivity|]. by split_and!.
Qed.

(** C2: the first attempt sends one descriptor per file name, none with
    crop bounds.  If the transport fails the error is raised and nothing
    is retried; if the answer is successful its JSON is the result and no
    second request is sent; otherwise exactly one more request is sent,
    every descriptor of which carries the bounds of the whole frame, and
    the result, or the error raised, is that of the second answer.  A run
    never has more than two exchanges. *)
Theorem create_video_generation_job_with_images_two_attempts
    prompt images image_filenames n_seconds height width n_variants w :
  let run := Sora.create_video_generation_job_with_images env self prompt
               images image_filenames n_seconds height width n_variants w in
  let n := length (trace w) in
  ∃ rq1 rq2 items1 items2,
    (inpaint_items rq1 = Some items1 ∧
     length items1 = length image_filenames ∧
     Forall (λ item, crop_of item = None) items1) ∧
    (inpaint_items rq2 = Some items2 ∧
     length items2 = length image_filenames ∧
     Forall (λ item, ∃ c, crop_of item = Some c ∧ full_frame c) items2) ∧
    match respond env n rq1 with
    | NetErr msg =>
        run.1 = Raised (RequestException msg) ∧
        trace run.2 = (trace w ++ [(rq1, NetErr msg)])%list
    | NetOk r1 =>
        if ok r1 then
          run.1 = json_of r1 ∧
          trace run.2 = (trace w ++ [(rq1, NetOk r1)])%list
        else
          trace run.2 =
            (trace w ++ [(rq1, NetOk r1); (rq2, respond env (S n) rq2)])%list ∧
          run.1 = match respond env (S n) rq2 with
                  | NetErr msg => Raised (RequestException msg)
                  | NetOk r2 =>
                      if ok r2 then json_of r2
                      else Raised (HTTPError (status_code r2))
                  end
    end.
Proof.
  intros run n. subst run n.
  unfold Sora.create_video_generation_job_with_images.
  unfold requests_post_multipart.
  set (url := Sora.base_url self +:+ _ +:+ _).
  set (hdrs := filter _ (Sora.headers self)).
  set (files := Sora.build_files images image_filenames).
  set (items1 := Sora.item_no_crop <$> image_filenames).
  set (items2 := Sora.item_with_crop <$> image_filenames).
  match goal with
  | |- context [requests_send env ?rq] =>
      match rq with context [items1] => set (rq1 := rq) end
  end.
  match goal with
  | |- context [requests_send env ?rq] =>
      match rq with context [items2] => set (rq2 := rq) end
  end.
  exists rq1, rq2, items1, items2. split_and!.
  - reflexivity.
  - apply length_fmap.
  - apply Forall_fmap, Forall_forall. intros filename _.
    apply item_no_crop_has_no_bounds.
  - reflexivity.
  - apply length_fmap.
  - apply Forall_fmap, Forall_forall. intros filename _.
    apply item_with_crop_is_full_frame.
  - rewrite bind_run, requests_send_run.
    destruct (respond env (length (trace w)) rq1) as [r1|msg] eqn:Hr1;
      [|split; [done|]; unfold after_call; cbn [snd trace]; by rewrite Hr1].
    unfold json_of, json.
    destruct (ok r1).
    { split; [by destruct (body_json r1)|].
      destruct (body_json r1); unfold after_call; cbn [snd trace];
        by rewrite Hr1. }
    rewrite bind_run, requests_send_run.
    assert (Hlen : length (trace (after_call env rq1 w)) = S (length (trace w)))
      by (unfold after_call; cbn [trace]; rewrite length_app; cbn; lia).
    assert (Htrace : trace (after_call env rq2 (after_call env rq1 w)) =
                     (trace w ++ [(rq1, NetOk r1);
                                  (rq2, respond env (S (length (trace w))) rq2)])%list).
    { unfold after_call at 1. cbn [trace]. rewrite Hlen.
      unfold after_call. cbn [trace]. by rewrite Hr1, <- app_assoc. }
    rewrite Hlen.
    destruct (respond env (S (length (trace w))) rq2) as [r2|msg];
      [|by split].
    rewrite bind_run. unfold raise_for_status.
    destruct (ok r2); cbn [negb].
    + rewrite ret_run. by destruct (body_json r2).
    + by split.
Qed.

End Video.

(** The backend refuses the first attempt with status 400 and accepts the
    second: the task of the second answer is returned. *)
Example create_video_falls_back_once :
  let env := Sample.scripted [Sample.answer 400 {[ "error" := VStr "crop_bounds" ]}]
               (Sample.answer 201 {[ "id" := VStr "task-2" ]}) in
  let run := Sora.create_video_generation_job_with_images env Sample.sora
               "a kite over dunes" [Sample.jpeg_bytes; Sample.jpeg_bytes]
               ["first.jpg"; "second.jpg"] 5 480 854 1 Sample.start in
  run.1 = Done {[ "id" := VStr "task-2" ]} ∧
  (inpaint_items <$> (fst <$> trace run.2)) =
    [Some (Sora.item_no_crop <$> ["first.jpg"; "second.jpg"]);
     Some (Sora.item_with_crop <$> ["first.jpg"; "second.jpg"])].
Proof. by vm_compute. Qed.

(** ** The pipeline dispatcher *)

Section Dispatcher.
Import Pipeline.
Context (parse_raw : string → string + ImagePipelineRequest).
Context (submit_and_wait : ImagePipelineRequest → list (list Byte.byte) →
                           option (list Byte.byte) → C (list (list Byte.byte))).
Context (analyze : list (list Byte.byte) → C analysis).
Context (message_of : exn → string).

Lemma attempt_run {A} (c : C A) w : attempt c w = (Done (c w).1, (c w).2).
Proof. reflexivity. Qed.

Lemma generation_stage_returns request source_images mask w :
  ∃ g w',
    generation_stage submit_and_wait message_of request source_images mask w =
    (Done g, w') ∧
    Forall (λ e, err_stage e = Generation) (error_of g).
Proof.
  unfold generation_stage.
  assert (Hcall :
    ∃ g w',
      (r ← attempt (submit_and_wait request (default [] source_images) mask);
       match r with
       | inl e => mret (Failed (StageError Generation (message_of e)))
       | inr artifacts => mret (Succeeded artifacts)
       end) w = (Done g, w') ∧
      Forall (λ e, err_stage e = Generation) (error_of g)).
  { rewrite bind_run, attempt_run.
    destruct (submit_and_wait _ _ _ w).1 as [e|artifacts];
      eexists _, _; (split; [reflexivity|]); cbn; by repeat constructor. }
  destruct (action request), (is_nonempty source_images); try exact Hcall.
  eexists _, _. split; [reflexivity|]. cbn. by repeat constructor.
Qed.

Lemma save_one_returns request storage cosmos artifact w :
  ∃ s w',
    save_one message_of request storage cosmos artifact w = (Done s, w') ∧
    Forall (λ e, err_stage e = Save) (error_of s).
Proof.
  unfold save_one. rewrite bind_run, attempt_run.
  destruct (upload storage artifact _ w).1 as [e|url].
  - eexists _, _. split; [reflexivity|]. cbn. by repeat constructor.
  - destruct cosmos as [c|].
    + rewrite bind_run, attempt_run. eexists _, _. split; [reflexivity|].
      cbn. constructor.
    + eexists _, _. split; [reflexivity|]. cbn. constructor.
Qed.

Lemma save_all_returns request storage cosmos artifacts : ∀ w,
  ∃ l w',
    mapM (save_one message_of request storage cosmos) artifacts w =
    (Done l, w') ∧
    Forall (λ e, err_stage e = Save) (l ≫= error_of).
Proof.
  induction artifacts as [|artifact artifacts IH]; intros w.
  - exists [], w. split; [reflexivity|]. constructor.
  - cbn [mapM]. rewrite bind_run.
    destruct (save_one_returns request storage cosmos artifact w)
      as (s & w1 & -> & Hs).
    rewrite bind_run. destruct (IH w1) as (l & w2 & -> & Hl).
    exists (s :: l), w2. split; [reflexivity|].
    cbn. by apply Forall_app.
Qed.

Lemma save_stage_returns request storage cosmos artifacts w :
  ∃ l w',
    save_stage message_of request storage cosmos artifacts w = (Done l, w') ∧
    Forall (λ e, err_stage e = Save) (l ≫= error_of).
Proof.
  unfold save_stage. destruct storage as [st|].
  - apply save_all_returns.
  - eexists _, _. split; [reflexivity|]. cbn. by repeat constructor.
Qed.

Lemma analysis_stage_returns artifacts w :
  ∃ a w',
    analysis_stage analyze message_of artifacts w = (Done a, w') ∧
    Forall (λ e, err_stage e = Analysis) (error_of a).
Proof.
  unfold analysis_stage. rewrite bind_run, attempt_run.
  destruct (analyze artifacts w).1 as [e|a];
    eexists _, _; (split; [reflexivity|]); cbn; by repeat constructor.
Qed.

Lemma process_pipeline_returns request storage cosmos source_images mask w :
  ∃ response w',
    process_pipeline submit_and_wait analyze message_of request storage
      cosmos source_images mask w = (Done response, w') ∧
    captured response ∧ short_circuited response.
Proof.
  unfold process_pipeline. rewrite bind_run.
  destruct (generation_stage_returns request source_images mask w)
    as (g & w1 & -> & Hg).
  destruct g as [artifacts|e].
  2:{ eexists _, _. split; [reflexivity|]. split; [|done].
      split_and!; [done|constructor..]. }
  rewrite bind_run.
  assert (∃ s w2,
    (if enabled (save_options request)
     then r ← save_stage message_of request storage cosmos artifacts;
          mret (Some r)
     else mret None) w1 = (Done s, w2) ∧
    Forall (λ e, err_stage e = Save) (from_option (λ l, l ≫= error_of) [] s))
    as (s & w2 & -> & Hs).
  { destruct (enabled (save_options request)).
    - rewrite bind_run.
      destruct (save_stage_returns request storage cosmos artifacts w1)
        as (l & w2 & -> & Hl).
      by exists (Some l), w2.
    - exists None, w1. split; [reflexivity|]. constructor. }
  rewrite bind_run.
  assert (∃ a w3,
    (if analysis_enabled (analysis_options request)
     then r ← analysis_stage analyze message_of artifacts; mret (Some r)
     else mret None) w2 = (Done a, w3) ∧
    Forall (λ e, err_stage e = Analysis) (from_option error_of [] a))
    as (a & w3 & -> & Ha).
  { destruct (analysis_enabled (analysis_options request)).
    - rewrite bind_run.
      destruct (analysis_stage_returns artifacts w2) as (a & w3 & -> & Ha).
      by exists (Some a), w3.
    - exists None, w2. split; [reflexivity|]. constructor. }
  eexists _, _. split; [reflexivity|]. split; [|done].
  split_and!.
  - constructor.
  - unfold save_errors. cbn. by destruct s.
  - unfold analysis_errors. cbn. by destruct a.
Qed.

Lemma save_one_outcome request storage cosmos artifact w :
  ∃ w',
    save_one message_of request storage cosmos artifact w =
    (Done (stage_outcome Save message_of
             (upload storage artifact (folder_path (save_options request)) w).1),
     w').
Proof.
  unfold save_one. rewrite bind_run, attempt_run.
  destruct (upload storage artifact _ w).1 as [e|url]; [by eexists|].
  destruct cosmos as [c|]; [|by eexists].
  rewrite bind_run, attempt_run. by eexists.
Qed.

Lemma mapM_save_one request storage cosmos artifacts : ∀ w,
  ∃ l w',
    mapM (save_one message_of request storage cosmos) artifacts w =
    (Done l, w') ∧
    Forall2
      (λ artifact s,
         ∃ w0, s = stage_outcome Save message_of
                     (upload storage artifact
                        (folder_path (save_options request)) w0).1)
      artifacts l.
Proof.
  induction artifacts as [|artifact artifacts IH]; intros w.
  - exists [], w. split; [reflexivity|]. constructor.
  - cbn [mapM]. rewrite bind_run.
    destruct (save_one_outcome request storage cosmos artifact w)
      as (w1 & ->).
    rewrite bind_run. destruct (IH w1) as (l & w2 & -> & Hl).
    eexists (_ :: l), w2. split; [reflexivity|].
    constructor; [by exists w|done].
Qed.

Lemma save_stage_saved request storage cosmos artifacts w :
  ∃ l w',
    save_stage message_of request storage cosmos artifacts w = (Done l, w') ∧
    saved message_of request storage artifacts l.
Proof.
  unfold save_stage, saved, chosen. destruct storage as [st|].
  - apply mapM_save_one.
  - eexists _, _. split; [reflexivity|]. by eexists.
Qed.

Lemma process_pipeline_reports request storage cosmos source_images mask w
    response w' :
  process_pipeline submit_and_wait analyze message_of request storage cosmos
    source_images mask w = (Done response, w') →
  reported submit_and_wait analyze message_of request storage source_images
    mask w response.
Proof.
  unfold process_pipeline, reported, generation_stage. rewrite bind_run.
  assert (Hcall :
    (r ← attempt (submit_and_wait request (default [] source_images) mask);
     match r with
     | inl e => mret (Failed (StageError Generation (message_of e)))
     | inr artifacts => mret (Succeeded artifacts)
     end) w =
    (Done (stage_outcome Generation message_of
             (submit_and_wait request (default [] source_images) mask w).1),
     (submit_and_wait request (default [] source_images) mask w).2)).
  { rewrite bind_run, attempt_run.
    by destruct (submit_and_wait request _ mask w).1. }
  assert (Hrest : ∀ w1,
    match stage_outcome Generation message_of
            (submit_and_wait request (default [] source_images) mask w).1 with
    | Failed e =>
        mret {| generationResult := Failed e; saveResult := None;
                analysisResult := None |}
    | Succeeded artifacts =>
        s ← (if enabled (save_options request)
             then r ← save_stage message_of request storage cosmos artifacts;
                  mret (Some r)
             else mret None);
        a ← (if analysis_enabled (analysis_options request)
             then r ← analysis_stage analyze message_of artifacts;
                  mret (Some r)
             else mret None);
        mret {| generationResult := Succeeded artifacts; saveResult := s;
                analysisResult := a |}
    end w1 = (Done response, w') →
    generationResult response =
      stage_outcome Generation message_of
        (submit_and_wait request (default [] source_images) mask w).1 ∧
    match (submit_and_wait request (default [] source_images) mask w).1 with
    | inl _ => saveResult response = None ∧ analysisResult response = None
    | inr artifacts =>
        (if enabled (save_options request)
         then ∃ l, saveResult response = Some l ∧
                   saved message_of request storage artifacts l
         else saveResult response = None) ∧
        (if analysis_enabled (analysis_options request)
         then ∃ w2, analysisResult response =
                      Some (stage_outcome Analysis message_of
                              (analyze artifacts w2).1)
         else analysisResult response = None)
    end).
  { intros w1.
    destruct (submit_and_wait request (default [] source_images) mask w).1
      as [e|artifacts]; cbn [stage_outcome].
    { by intros [= <- <-]. }
    rewrite bind_run.
    assert (∃ s w2,
      (if enabled (save_options request)
       then r ← save_stage message_of request storage cosmos artifacts;
            mret (Some r)
       else mret None) w1 = (Done s, w2) ∧
      (if enabled (save_options request)
       then ∃ l, s = Some l ∧ saved message_of request storage artifacts l
       else s = None)) as (s & w2 & -> & Hs).
    { destruct (enabled (save_options request)).
      - rewrite bind_run.
        destruct (save_stage_saved request storage cosmos artifacts w1)
          as (l & w2 & -> & Hl).
        exists (Some l), w2. split; [reflexivity|]. by exists l.
      - by exists None, w1. }
    rewrite bind_run.
    assert (∃ a w3,
      (if analysis_enabled (analysis_options request)
       then r ← analysis_stage analyze message_of artifacts; mret (Some r)
       else mret None) w2 = (Done a, w3) ∧
      (if analysis_enabled (analysis_options request)
       then ∃ w0, a = Some (stage_outcome Analysis message_of
                              (analyze artifacts w0).1)
       else a = None)) as (a & w3 & -> & Ha).
    { destruct (analysis_enabled (analysis_options request)).
      - rewrite bind_run. unfold analysis_stage.
        rewrite bind_run, attempt_run.
        destruct (analyze artifacts w2).1 as [e|found] eqn:Hfound;
          eexists _, _; (split; [reflexivity|]); exists w2;
          by rewrite Hfound.
      - by exists None, w2. }
    intros [= <- <-]. by split_and!. }
  destruct (action request), (is_nonempty source_images);
    try (rewrite Hcall; apply Hrest).
  intros [= <- <-]. by eexists.
Qed.

(** C9: whatever the collaborators do, the dispatcher returns a response
    and raises nothing, and the response reports what happened.  An edit
    without source image is refused under Generation.  Otherwise the
    Generation result is what the backend call gave: its artifacts, or its
    error as the stage Generation with the message of the error, after
    which neither Save nor Analysis is present.  After a successful
    Generation, Save is present exactly when it is enabled, with one
    outcome per saved artifact (each the result or the error of its
    upload, under Save), and Analysis exactly when it is enabled (the
    result or the error of the collaborator, under Analysis); no failure
    of theirs changes the Generation result.  Each error sits in the
    field of its own stage.  The endpoint hands every payload that is a
    pipeline request to the dispatcher, with the storage service only when
    saving is enabled and the uploads of both form fields, and returns
    what it returns; a payload that is none is refused with status 422
    before the dispatcher is reached. *)
Theorem process_pipeline_never_raises payload request azure_storage_service
    storage cosmos source_images image mask w :
  (∃ response w',
     process_pipeline submit_and_wait analyze message_of request storage
       cosmos source_images mask w = (Done response, w') ∧
     captured response ∧ short_circuited response ∧
     reported submit_and_wait analyze message_of request storage
       source_images mask w response) ∧
  match parse_raw payload with
  | inr pipeline_request =>
      process_image_pipeline parse_raw submit_and_wait analyze message_of
        payload source_images image mask azure_storage_service cosmos w =
      process_pipeline submit_and_wait analyze message_of pipeline_request
        (if enabled (save_options pipeline_request)
         then Some azure_storage_service else None)
        cosmos
        (match source_images, image with
         | Some ((_ :: _) as first), Some ((_ :: _) as second) =>
             Some (first ++ second)%list
         | Some ((_ :: _) as first), _ => Some first
         | _, Some ((_ :: _) as second) => Some second
         | _, _ => None
         end)
        mask w
  | inl detail =>
      process_image_pipeline parse_raw submit_and_wait analyze message_of
        payload source_images image mask azure_storage_service cosmos w =
      (Raised (HTTPException 422 detail), w)
  end.
Proof.
  split.
  - destruct (process_pipeline_returns request storage cosmos source_images
                mask w) as (response & w' & Hrun & Hcaptured & Hshort).
    exists response, w'. split_and!; try done.
    by apply (process_pipeline_reports request storage cosmos source_images
                mask w response w').
  - unfold process_image_pipeline.
    destruct (parse_raw payload) as [detail|pipeline_request]; [done|].
    cbn zeta. f_equal.
    destruct source_images as [[|x first]|], image as [[|y second]|];
      cbn [is_nonempty orb default from_option id]; try done;
      by rewrite app_nil_r.
Qed.

End Dispatcher.

(** The backend declares the task failed: the response reports the failure
    under Generation, with the backend's detail, and has no other stage. *)
Example pipeline_reports_generation_failure :
  let run := Pipeline.process_pipeline Sample.refusing_backend
               Sample.no_analysis Sample.message_of
               (Sample.pipeline_request true) (Some Sample.broken_storage)
               None None None Sample.start in
  run.1 = Done {| Pipeline.generationResult :=
                    Pipeline.Failed
                      (Pipeline.StageError Pipeline.Generation
                         "Flux generation failed: unsafe content");
                  Pipeline.saveResult := None;
                  Pipeline.analysisResult := None |}.
Proof. reflexivity. Qed.

(** Generation succeeds and the storage is down: the failure is reported
    under Save and the generated image is kept. *)
Example pipeline_reports_save_failure :
  let run := Pipeline.process_pipeline Sample.delivering_backend
               Sample.no_analysis Sample.message_of
               (Sample.pipeline_request true) (Some Sample.broken_storage)
               None None None Sample.start in
  run.1 = Done {| Pipeline.generationResult :=
                    Pipeline.Succeeded [Sample.jpeg_bytes];
                  Pipeline.saveResult :=
                    Some [Pipeline.Failed
                            (Pipeline.StageError Pipeline.Save "storage down")];
                  Pipeline.analysisResult := None |}.
Proof. reflexivity. Qed.

(** * Further properties *)

(** ** More on the request body *)

(** Refutes membership of a literal in a list of other literals *)
Ltac off_list H :=
  exfalso; repeat (apply elem_of_cons in H as [?|H]; [done|]);
  by apply elem_of_nil in H.

Section PayloadKeys.

Implicit Types (d payload kwargs : dict) (k : string) (v : value).

Lemma lookup_update_Some d (kvs : list (string * value)) k v :
  update d kvs !! k = Some v → k ∈ kvs.*1 ∨ d !! k = Some v.
Proof.
  unfold update. revert d. induction kvs as [|[k' v'] kvs IH]; intros d; cbn.
  - by right.
  - intros [Hin|Hd]%IH.
    + left. by right.
    + destruct (decide (k' = k)) as [->|Hne].
      * left. by left.
      * right. by rewrite lookup_insert_ne in Hd.
Qed.

Lemma lookup_add_if_given_Some k k' kwargs payload v :
  add_if_given k' kwargs payload !! k = Some v →
  (k = k' ∧ kwargs !! k = Some v ∧ truthy v = true) ∨ payload !! k = Some v.
Proof.
  unfold add_if_given. destruct (truthy (get kwargs k')) eqn:Ht; [|by right].
  destruct (decide (k' = k)) as [->|Hne].
  - rewrite lookup_insert_eq. intros [= <-]. left. split; [done|].
    unfold get in *. destruct (kwargs !! k); [done|]. by cbn in Ht.
  - rewrite lookup_insert_ne by done. by right.
Qed.

Lemma lookup_update_last d (kvs : list (string * value)) k v :
  Forall (λ kv, kv.1 = k → kv.2 = v) kvs → k ∈ kvs.*1 →
  update d kvs !! k = Some v.
Proof.
  unfold update. intros Hall. revert d.
  induction Hall as [|[k' v'] kvs Hkv Hall IH]; intros d Hin; cbn in *.
  - by apply elem_of_nil in Hin.
  - destruct (decide (k ∈ kvs.*1)) as [Hlater|Hnot]; [by apply IH|].
    apply elem_of_cons in Hin as [->|?]; [|done].
    clear IH. rewrite (Hkv eq_refl).
    assert (Hkeep : ∀ d', d' !! k' = Some v →
      foldl (λ acc kv, <[kv.1:=kv.2]> acc) d' kvs !! k' = Some v).
    { clear Hkv. induction kvs as [|[k2 v2] kvs IH']; intros d' Hd'; [done|].
      cbn. apply IH'.
      - by apply Forall_cons in Hall as [_ ?].
      - intros Hin. apply Hnot. cbn. by right.
      - rewrite lookup_insert_ne; [done|]. intros ->. apply Hnot. cbn. by left. }
    apply Hkeep. by rewrite lookup_insert_eq.
Qed.

Lemma model_fields_given model kwargs k v :
  kwargs !! k = Some v →
  Forall (λ kv, kv.1 = k → kv.2 = v) (model_fields model kwargs).
Proof.
  intros Hk. unfold model_fields.
  repeat case_match;
    repeat (apply Forall_cons; split;
            [cbn [fst snd]; intros <-; unfold get_or, get; by rewrite Hk|]);
    by apply Forall_nil.
Qed.

Lemma model_fields_names model kwargs kwargs' :
  (model_fields model kwargs).*1 = (model_fields model kwargs').*1.
Proof. unfold model_fields. by repeat case_match. Qed.

(** X1: only the keys of the model are ever sent: the prompt, always and as
    given; the fields of the model; a webhook parameter when it is given
    and true.  Any other keyword, [max_wait_time] among them, stays out of
    the payload; the ultra model is never sent a width or a height, and
    [flux-pro] never a reference image or an aspect ratio. *)
Theorem generate_image_payload_keys prompt model kwargs :
  let payload := generate_image_payload prompt model kwargs in
  (∀ k v, payload !! k = Some v → k ∈ payload_keys model kwargs) ∧
  payload !! "prompt" = Some (VStr prompt) ∧
  payload !! "max_wait_time" = None ∧
  (model = "flux-pro-ultra" →
     payload !! "width" = None ∧ payload !! "height" = None) ∧
  (model = "flux-pro" →
     payload !! "image_prompt" = None ∧ payload !! "aspect_ratio" = None).
Proof.
  intros payload. subst payload.
  assert (Hkeys : ∀ k v,
    generate_image_payload prompt model kwargs !! k = Some v →
    k ∈ payload_keys model kwargs).
  { intros k v [Hk _]%lookup_drop_none_Some. unfold payload_keys.
    apply lookup_add_if_given_Some in Hk as [(-> & _)|Hk].
    { apply elem_of_cons. right. apply elem_of_app. right.
      apply elem_of_cons. right. by apply elem_of_cons; left. }
    apply lookup_add_if_given_Some in Hk as [(-> & _)|Hk].
    { apply elem_of_cons. right. apply elem_of_app. right.
      by apply elem_of_cons; left. }
    apply lookup_update_Some in Hk as [Hk|Hk].
    - apply elem_of_cons. right. apply elem_of_app. by left.
    - apply lookup_singleton_Some in Hk as [<- _]. by apply elem_of_cons; left. }
  assert (Hout : ∀ k, k ∉ payload_keys model kwargs →
    generate_image_payload prompt model kwargs !! k = None).
  { intros k Hk.
    destruct (generate_image_payload prompt model kwargs !! k) eqn:E; [|done].
    by destruct (Hk (Hkeys _ _ E)). }
  split_and!.
  - exact Hkeys.
  - unfold generate_image_payload. apply lookup_drop_none_Some. split; [|done].
    rewrite !lookup_add_if_given_ne by done.
    destruct (update {[ "prompt" := VStr prompt ]} (model_fields model kwargs)
                !! "prompt") as [v|] eqn:E.
    + apply lookup_update_Some in E as [E|E].
      * exfalso. revert E. unfold model_fields.
        repeat case_match; cbn; intros E; by off_list E.
      * by rewrite lookup_singleton_eq in E.
    + exfalso. revert E. generalize (model_fields model kwargs).
      unfold update. intros kvs. 
      assert (H : ∀ d : dict, is_Some (d !! "prompt") →
        is_Some (foldl (λ acc kv, <[kv.1:=kv.2]> acc) d kvs !! "prompt")).
      { induction kvs as [|[k' v'] kvs IH]; intros d Hd; [done|]. cbn.
        apply IH. destruct (decide (k' = "prompt")) as [->|];
          [by rewrite lookup_insert_eq|by rewrite lookup_insert_ne]. }
      intros E. destruct (H {[ "prompt" := VStr prompt ]}) as [x Hx].
      * by rewrite lookup_singleton_eq.
      * congruence.
  - apply Hout. unfold payload_keys, model_fields.
    repeat case_match; cbn; intros E; by off_list E.
  - intros ->. split; apply Hout; unfold payload_keys, model_fields; cbn;
      intros E; by off_list E.
  - intros ->. split; apply Hout; unfold payload_keys, model_fields; cbn;
      intros E; by off_list E.
Qed.

Lemma generate_image_payload_keys_witness :
  generate_image_payload "a red bicycle" "flux-pro-ultra"
    {[ "width" := VInt 512; "max_wait_time" := VInt 60 ]} !! "width" = None ∧
  generate_image_payload "a red bicycle" "flux-pro"
    {[ "image_prompt" := VStr "aGVsbG8=" ]} !! "image_prompt" = None.
Proof.
  split.
  - by apply (generate_image_payload_keys "a red bicycle" "flux-pro-ultra").
  - by apply (generate_image_payload_keys "a red bicycle" "flux-pro").
Defined.

(** X2: a keyword the caller gives wins over the default: a field of the
    model that is given, and is not [None], is sent as given.  A webhook
    parameter is sent as given when it is true, and left out when it is
    given but false, an empty string for one. *)
Theorem generate_image_payload_given prompt model kwargs k v :
  kwargs !! k = Some v →
  let payload := generate_image_payload prompt model kwargs in
  (k ∈ (model_fields model kwargs).*1 → is_none v = false →
     payload !! k = Some v) ∧
  (k ∈ ["webhook_url"; "webhook_secret"] →
     payload !! k = if truthy v then Some v else None).
Proof.
  intros Hk payload. subst payload. split.
  - intros Hin Hv. unfold generate_image_payload.
    apply lookup_drop_none_Some. split; [|done].
    assert (Hkeep : ∀ k' p, p !! k = Some v →
      add_if_given k' kwargs p !! k = Some v).
    { intros k' p Hp. unfold add_if_given. case_match; [|done].
      destruct (decide (k' = k)) as [->|].
      - rewrite lookup_insert_eq. unfold get. by rewrite Hk.
      - by rewrite lookup_insert_ne. }
    do 2 apply Hkeep.
    apply lookup_update_last; [by apply model_fields_given|done].
  - intros Hin.
    assert (Hbase : update {[ "prompt" := VStr prompt ]}
                      (model_fields model kwargs) !! k = None).
    { destruct (update _ _ !! k) as [x|] eqn:E; [|done].
      apply lookup_update_Some in E as [E|E].
      - exfalso. revert E. unfold model_fields.
        apply elem_of_cons in Hin as [->|Hin];
          [|apply elem_of_cons in Hin as [->|Hin];
            [|by apply elem_of_nil in Hin]];
          repeat case_match; cbn; intros E; by off_list E.
      - apply lookup_singleton_Some in E as [<- _]. by off_list Hin. }
    unfold generate_image_payload.
    apply elem_of_cons in Hin as [->|Hin];
      [|apply elem_of_cons in Hin as [->|Hin]; [|by apply elem_of_nil in Hin]].
    + destruct (truthy v) eqn:Ht.
      * apply lookup_drop_none_Some. split; [|by destruct v].
        rewrite lookup_add_if_given_ne by done.
        unfold add_if_given, get. rewrite Hk. cbn [from_option id]. rewrite Ht.
        by rewrite lookup_insert_eq.
      * apply lookup_drop_none_None. left.
        rewrite lookup_add_if_given_ne by done.
        unfold add_if_given, get. rewrite Hk. cbn [from_option id]. by rewrite Ht.
    + destruct (truthy v) eqn:Ht.
      * apply lookup_drop_none_Some. split; [|by destruct v].
        unfold add_if_given at 1. unfold get. rewrite Hk. cbn [from_option id].
        rewrite Ht. by rewrite lookup_insert_eq.
      * apply lookup_drop_none_None. left.
        unfold add_if_given at 1. unfold get. rewrite Hk. cbn [from_option id].
        rewrite Ht. by rewrite lookup_add_if_given_ne.
Qed.

Lemma generate_image_payload_given_witness :
  generate_image_payload "a red bicycle" "flux-pro"
    {[ "width" := VInt 512; "webhook_url" := VStr "" ]} !! "width"
    = Some (VInt 512) ∧
  generate_image_payload "a red bicycle" "flux-pro"
    {[ "width" := VInt 512; "webhook_url" := VStr "" ]} !! "webhook_url"
    = None.
Proof.
  split.
  - assert (Hwidth : ({[ "width" := VInt 512; "webhook_url" := VStr "" ]} : dict)
                       !! "width" = Some (VInt 512)) by reflexivity.
    destruct (generate_image_payload_given "a red bicycle" "flux-pro"
                _ "width" (VInt 512) Hwidth) as [Hfield _].
    apply Hfield; [|reflexivity]. vm_compute. by left.
  - assert (Hhook : ({[ "width" := VInt 512; "webhook_url" := VStr "" ]} : dict)
                      !! "webhook_url" = Some (VStr "")) by reflexivity.
    destruct (generate_image_payload_given "a red bicycle" "flux-pro"
                _ "webhook_url" (VStr "") Hhook) as [_ Hempty].
    apply Hempty. by left.
Defined.

End PayloadKeys.

(** ** More on polling *)

Section PollingRuns.
Context (env : Env) (self : FluxClient) (task_id : value).
Context (max_wait_time poll_interval : Z).

Lemma get_task_status_outcome w :
  get_task_status env self task_id w =
  let q := status_query self task_id in
  let res := respond env (length (trace w)) q in
  (match reply_error res with
   | Some e => Raised e
   | None => match res with
             | NetOk r => default (Raised JSONDecodeError) (Done <$> body_json r)
             | NetErr msg => Raised (RequestException msg)
             end
   end, after_call env q w).
Proof.
  rewrite get_task_status_run. cbn zeta. unfold reply_error.
  destruct (respond env _ _) as [r|msg]; [|done].
  destruct (ok r); [|done]. by destruct (body_json r).
Qed.

(** The shape of every run of the loop: the exchanges it adds are status
    queries for the task, the sleeps it adds are poll intervals, one sleep
    lies between two queries, and the clock has moved by at least the
    sleeps. *)
Lemma wait_loop_shape fuel : ∀ start w,
  let run := wait_loop env fuel self task_id start max_wait_time
               poll_interval w in
  ∃ new (k : nat),
    trace run.2 = (trace w ++ new)%list ∧
    sleeps run.2 = (sleeps w ++ replicate k poll_interval)%list ∧
    Forall (λ x, x.1 = status_query self task_id) new ∧
    length new = (if at_condition run.1 then k else S k) ∧
    (0 ≤ poll_interval → now w + Z.of_nat k * poll_interval ≤ now run.2).
Proof.
  induction fuel as [|fuel IH]; intros start w run; subst run.
  - exists [], 0%nat. cbn. rewrite !app_nil_r. split_and!; try done. lia.
  - rewrite wait_loop_S.
    destruct (now w - start <? max_wait_time).
    2:{ exists [], 0%nat. cbn. rewrite !app_nil_r. split_and!; try done. lia. }
    rewrite get_task_status_run. cbn zeta.
    set (q := status_query self task_id).
    assert (Hone : ∀ o : outcome dict, at_condition o = false →
      ∃ new (k : nat),
        trace (o, after_call env q w).2 = (trace w ++ new)%list ∧
        sleeps (o, after_call env q w).2 =
          (sleeps w ++ replicate k poll_interval)%list ∧
        Forall (λ x, x.1 = q) new ∧
        length new = (if at_condition (o, after_call env q w).1 then k else S k) ∧
        (0 ≤ poll_interval →
         now w + Z.of_nat k * poll_interval ≤ now (o, after_call env q w).2)).
    { intros o Ho. exists [(q, respond env (length (trace w)) q)], 0%nat.
      cbn [fst snd]. rewrite Ho. unfold after_call. cbn [trace sleeps now].
      rewrite app_nil_r. split_and!; try done.
      - by repeat constructor.
      - intros _. lia. }
    destruct (respond env (length (trace w)) q) as [r|msg] eqn:Hr;
      [|by apply Hone].
    destruct (ok r); [|by apply Hone].
    destruct (body_json r) as [status|]; [|by apply Hone].
    destruct (eq_str (get status "status") "Ready"); [by apply Hone|].
    destruct (eq_str (get status "status") "Error"); [by apply Hone|].
    destruct (Z.ltb_spec poll_interval 0); [by apply Hone|].
    destruct (IH start (after_sleep env poll_interval (after_call env q w)))
      as (new & k & Htrace & Hsleeps & Hall & Hlen & Hnow).
    exists ((q, NetOk r) :: new), (S k). split_and!.
    + rewrite Htrace. unfold after_sleep, after_call. cbn [trace].
      by rewrite Hr, <- app_assoc.
    + rewrite Hsleeps. unfold after_sleep, after_call. cbn [sleeps].
      by rewrite <- app_assoc.
    + by constructor.
    + cbn [length]. rewrite Hlen. by destruct (at_condition _).
    + intros Hpoll. specialize (Hnow Hpoll).
      assert (Hslept : now (after_sleep env poll_interval (after_call env q w)) =
                       now w + Z.of_N (latency env (length (trace w)))
                       + poll_interval
                       + Z.of_N (oversleep env (length (sleeps w))))
        by reflexivity.
      rewrite Hslept in Hnow. rewrite Nat2Z.inj_succ. lia.
Qed.

(** X3: every exchange of a run of [wait_for_completion] is a status query
    for the task it was given, with the client's headers; each sleep is
    one poll interval and exactly one sleep separates two queries: a run
    that ends at the loop condition has slept once per query, any other
    run once less. *)
Theorem wait_for_completion_queries_and_sleeps fuel w :
  let run := wait_for_completion env fuel self task_id max_wait_time
               poll_interval w in
  ∃ new (k : nat),
    trace run.2 = (trace w ++ new)%list ∧
    sleeps run.2 = (sleeps w ++ replicate k poll_interval)%list ∧
    Forall (λ x, x.1 = status_query self task_id) new ∧
    length new = (if at_condition run.1 then k else S k).
Proof.
  intros run. subst run. rewrite wait_for_completion_run.
  destruct (wait_loop_shape fuel (now w) w)
    as (new & k & Htrace & Hsleeps & Hall & Hlen & _).
  by exists new, k.
Qed.

(** X4: with a poll interval that is not negative, a run that made [n]
    queries took at least [n - 1] poll intervals. *)
Theorem wait_for_completion_elapsed fuel w :
  0 ≤ poll_interval →
  let run := wait_for_completion env fuel self task_id max_wait_time
               poll_interval w in
  (Z.of_nat (length (trace run.2)) - Z.of_nat (length (trace w)) - 1)
    * poll_interval ≤ now run.2 - now w.
Proof.
  intros Hpoll run. subst run. rewrite wait_for_completion_run.
  destruct (wait_loop_shape fuel (now w) w)
    as (new & k & Htrace & _ & _ & Hlen & Hnow).
  specialize (Hnow Hpoll). rewrite Htrace, length_app, Hlen.
  destruct (at_condition _); nia.
Qed.

Lemma wait_loop_done fuel : ∀ start w status,
  let run := wait_loop env fuel self task_id start max_wait_time
               poll_interval w in
  run.1 = Done status →
  eq_str (get status "status") "Ready" = true ∧
  ∃ r, last (trace run.2) = Some (status_query self task_id, NetOk r) ∧
       ok r = true ∧ body_json r = Some status.
Proof.
  induction fuel as [|fuel IH]; intros start w status run; subst run; [done|].
  rewrite wait_loop_S.
  destruct (now w - start <? max_wait_time); [|done].
  rewrite get_task_status_run. cbn zeta.
  destruct (respond env _ _) as [r|msg] eqn:Hr; [|done].
  destruct (ok r) eqn:Hok; [|done].
  destruct (body_json r) as [status'|] eqn:Hjson; [|done].
  destruct (eq_str (get status' "status") "Ready") eqn:Hready.
  { cbn [fst snd]. intros [= <-]. split; [done|]. exists r.
    unfold after_call. cbn [trace]. by rewrite last_snoc, Hr. }
  destruct (eq_str (get status' "status") "Error"); [done|].
  destruct (poll_interval <? 0); [done|]. apply IH.
Qed.

(** X5: [wait_for_completion] only ever returns a status that says [Ready],
    and what it returns is the JSON of the last answer received. *)
Theorem wait_for_completion_returns_ready fuel w status :
  let run := wait_for_completion env fuel self task_id max_wait_time
               poll_interval w in
  run.1 = Done status →
  eq_str (get status "status") "Ready" = true ∧
  ∃ r, last (trace run.2) = Some (status_query self task_id, NetOk r) ∧
       ok r = true ∧ body_json r = Some status.
Proof.
  intros run. subst run. rewrite wait_for_completion_run.
  apply wait_loop_done.
Qed.

Lemma wait_loop_failed_query fuel : ∀ start w,
  let run := wait_loop env fuel self task_id start max_wait_time
               poll_interval w in
  ∃ new, trace run.2 = (trace w ++ new)%list ∧
    ∀ i x e, new !! i = Some x → reply_error x.2 = Some e →
      S i = length new ∧ run.1 = Raised e.
Proof.
  induction fuel as [|fuel IH]; intros start w run; subst run.
  - exists []. cbn. split; [by rewrite app_nil_r|]. by intros i x e Hi.
  - rewrite wait_loop_S.
    destruct (now w - start <? max_wait_time).
    2:{ exists []. cbn. split; [by rewrite app_nil_r|]. by intros i x e Hi. }
    rewrite get_task_status_outcome. cbn zeta.
    set (q := status_query self task_id).
    remember (respond env (length (trace w)) q) as res eqn:Hrespond.
    assert (Hafter : trace (after_call env q w) = (trace w ++ [(q, res)])%list)
      by (by rewrite Hrespond).
    destruct (reply_error res) as [e|] eqn:Herr.
    { exists [(q, res)]. split; [done|].
      intros [|i] x e' Hi He'; [|done]. injection Hi as <-.
      cbn [snd] in He'. split; [done|]. cbn [fst]. congruence. }
    assert (Hjson : ∃ r status, res = NetOk r ∧ body_json r = Some status).
    { unfold reply_error in Herr. destruct res as [r|msg]; [|done].
      destruct (ok r); [|done].
      destruct (body_json r) as [status|] eqn:Hbody; [|done].
      by exists r, status. }
    destruct Hjson as (r & status & Hres & Hbody). rewrite Hres, Hbody.
    cbn [fmap option_fmap option_map from_option id].
    assert (Hone : ∀ o : outcome dict,
      ∃ new, trace (o, after_call env q w).2 = (trace w ++ new)%list ∧
        ∀ i x e, new !! i = Some x → reply_error x.2 = Some e →
          S i = length new ∧ (o, after_call env q w).1 = Raised e).
    { intros o. exists [(q, res)]. split; [done|].
      intros [|i] x e' Hi He'; [|done]. injection Hi as <-.
      cbn [snd] in He'. congruence. }
    destruct (eq_str (get status "status") "Ready"); [by apply Hone|].
    destruct (eq_str (get status "status") "Error"); [by apply Hone|].
    destruct (poll_interval <? 0); [by apply Hone|].
    destruct (IH start (after_sleep env poll_interval (after_call env q w)))
      as (new & Htrace & Hnew).
    exists ((q, res) :: new). split.
    + rewrite Htrace. unfold after_sleep. cbn [trace].
      by rewrite Hafter, <- app_assoc.
    + intros [|i] x e' Hi He'.
      * injection Hi as <-. cbn [snd] in He'. congruence.
      * destruct (Hnew i x e' Hi He') as [Hlen Hrun].
        split; [cbn; lia|done].
Qed.

(** X6: a status query that fails is never retried: when the transport
    fails, the answer has a status code from 400 to 599 or its body is no
    JSON, that exchange is the last of the run and the run raises the
    corresponding exception. *)
Theorem wait_for_completion_failed_query_is_final fuel w i x e :
  let run := wait_for_completion env fuel self task_id max_wait_time
               poll_interval w in
  trace run.2 !! (length (trace w) + i)%nat = Some x →
  reply_error x.2 = Some e →
  length (trace run.2) = S (length (trace w) + i) ∧ run.1 = Raised e.
Proof.
  intros run. subst run. rewrite wait_for_completion_run.
  destruct (wait_loop_failed_query fuel (now w) w) as (new & Htrace & Hnew).
  rewrite Htrace. intros Hx Herr.
  rewrite lookup_app_r in Hx by lia.
  replace (length (trace w) + i - length (trace w))%nat with i in Hx by lia.
  destruct (Hnew i x e Hx Herr) as [Hlen Hrun].
  split; [|done]. rewrite length_app. lia.
Qed.

Lemma wait_loop_timed_out fuel : ∀ start w t m,
  let run := wait_loop env fuel self task_id start max_wait_time
               poll_interval w in
  run.1 = Raised (TimeoutError t m) →
  t = task_id ∧ m = max_wait_time ∧ max_wait_time ≤ now run.2 - start.
Proof.
  induction fuel as [|fuel IH]; intros start w t m run; subst run; [done|].
  rewrite wait_loop_S.
  destruct (Z.ltb_spec (now w - start) max_wait_time).
  2:{ cbn [fst snd]. by intros [= <- <-]. }
  rewrite get_task_status_run. cbn zeta.
  destruct (respond env _ _) as [r|msg]; [|done].
  destruct (ok r); [|done].
  destruct (body_json r) as [status|]; [|done].
  destruct (eq_str (get status "status") "Ready"); [done|].
  destruct (eq_str (get status "status") "Error"); [done|].
  destruct (poll_interval <? 0); [done|]. apply IH.
Qed.

(** X7: [TimeoutError] is never raised early: when a run ends with it, at
    least [max_wait_time] has passed since the call started, and the error
    names the task and the limit of this call. *)
Theorem wait_for_completion_times_out_late fuel w t m :
  let run := wait_for_completion env fuel self task_id max_wait_time
               poll_interval w in
  run.1 = Raised (TimeoutError t m) →
  t = task_id ∧ m = max_wait_time ∧ max_wait_time ≤ now run.2 - now w.
Proof.
  intros run. subst run. rewrite wait_for_completion_run.
  apply wait_loop_timed_out.
Qed.

(** X8: a negative poll interval is only found out at the first sleep: the
    first query is made, and when its answer is not terminal the call
    raises the [ValueError] of [time.sleep]. *)
Theorem wait_for_completion_negative_interval fuel w status :
  poll_interval < 0 → 0 < max_wait_time →
  answers env (length (trace w)) (status_query self task_id) status →
  non_terminal status →
  wait_for_completion env (S fuel) self task_id max_wait_time poll_interval w =
  (Raised ValueError_sleep, after_call env (status_query self task_id) w).
Proof.
  intros Hpoll Hwait Hanswer [Hready Herror].
  rewrite wait_for_completion_run, wait_loop_S.
  destruct (Z.ltb_spec (now w - now w) max_wait_time); [|lia].
  rewrite (get_task_status_answers _ _ _ _ _ Hanswer), Hready, Herror.
  by destruct (Z.ltb_spec poll_interval 0); [|lia].
Qed.

End PollingRuns.

Lemma wait_for_completion_elapsed_witness :
  let run := wait_for_completion Sample.ready_on_third 10 Sample.client
               (VStr "task-1") 300 5 Sample.start in
  length (trace run.2) = 3%nat ∧ 10 ≤ now run.2.
Proof.
  intros run. split; [by vm_compute|].
  assert (Hpoll : 0 ≤ 5) by lia.
  pose proof (wait_for_completion_elapsed Sample.ready_on_third Sample.client
                (VStr "task-1") 300 5 10 Sample.start Hpoll) as Hrun.
  cbn zeta in Hrun. fold run in Hrun.
  assert (Hlen : length (trace run.2) = 3%nat) by (by vm_compute).
  rewrite Hlen in Hrun. change (now Sample.start) with 0 in Hrun.
  change (length (trace Sample.start)) with 0%nat in Hrun. lia.
Defined.

Lemma wait_for_completion_returns_ready_witness :
  eq_str (get (Sample.with_status "Ready") "status") "Ready" = true.
Proof.
  apply (wait_for_completion_returns_ready Sample.ready_on_third Sample.client
           (VStr "task-1") 300 5 10 Sample.start (Sample.with_status "Ready")).
  by vm_compute.
Defined.

Lemma wait_for_completion_failed_query_is_final_witness :
  let env := Sample.scripted [Sample.answer 200 (Sample.with_status "Pending");
                              Sample.answer 503 ∅]
               (Sample.answer 200 (Sample.with_status "Ready")) in
  let run := wait_for_completion env 10 Sample.client (VStr "task-1") 300 5
               Sample.start in
  length (trace run.2) = 2%nat ∧ run.1 = Raised (HTTPError 503).
Proof.
  intros env run.
  apply (wait_for_completion_failed_query_is_final env Sample.client
           (VStr "task-1") 300 5 10 Sample.start 1%nat
           (status_query Sample.client (VStr "task-1"), Sample.answer 503 ∅)
           (HTTPError 503)).
  - by vm_compute.
  - by vm_compute.
Defined.

Lemma wait_for_completion_times_out_late_witness :
  let run := wait_for_completion Sample.never_ready 10 Sample.client
               (VStr "task-1") 12 5 Sample.start in
  12 ≤ now run.2 - now Sample.start.
Proof.
  intros run.
  apply (wait_for_completion_times_out_late Sample.never_ready Sample.client
           (VStr "task-1") 12 5 10 Sample.start (VStr "task-1") 12).
  by vm_compute.
Defined.

Lemma wait_for_completion_negative_interval_witness :
  (wait_for_completion Sample.never_ready 1 Sample.client (VStr "task-1")
     300 (-1) Sample.start).1 = Raised ValueError_sleep.
Proof.
  rewrite (wait_for_completion_negative_interval Sample.never_ready
             Sample.client (VStr "task-1") 300 (-1) 0 Sample.start
             (Sample.with_status "Pending")); [done|lia|lia| |by vm_compute].
  by exists (Response 200 [] (Some (Sample.with_status "Pending"))).
Defined.

(** ** Submitting, then polling *)

Section SubmitAndPoll.
Context (env : Env) (self : FluxClient).

Lemma generate_image_run prompt model kwargs w :
  generate_image env self prompt model kwargs w =
  match model_endpoints !! model with
  | None => (Raised (ValueError_unsupported_model model), w)
  | Some name =>
      let sub := submission self prompt model name kwargs in
      (outcome_of_reply (respond env (length (trace w)) sub),
       after_call env sub w)
  end.
Proof.
  unfold generate_image. destruct (model_endpoints !! model) as [name|]; [|done].
  cbn zeta. unfold requests_post_json. rewrite bind_run, requests_send_run.
  fold (submission self prompt model name kwargs).
  unfold outcome_of_reply, json_of.
  destruct (respond env _ _) as [r|msg]; [|done].
  rewrite bind_run. unfold raise_for_status, json.
  destruct (ok r); [|done]. rewrite ret_run. by destruct (body_json r).
Qed.

(** X9: a submission is one POST whatever the answer, and nothing is
    sent again: a transport failure and a status code from 400 to 599
    (raised with the code) end the call; so does, with some error, a body
    that is no JSON object (which error depends on whether the body is
    JSON at all: the log line after [response.json()] reads
    [result.get('id')]); an answer whose body is a JSON object returns
    that object.  An unsupported model raises before anything is sent. *)
Theorem generate_image_outcome prompt model kwargs w :
  let run := generate_image env self prompt model kwargs w in
  match model_endpoints !! model with
  | None => run = (Raised (ValueError_unsupported_model model), w)
  | Some name =>
      let sub := submission self prompt model name kwargs in
      let res := respond env (length (trace w)) sub in
      trace run.2 = (trace w ++ [(sub, res)])%list ∧
      match res with
      | NetErr msg => run.1 = Raised (RequestException msg)
      | NetOk r =>
          if (400 <=? status_code r) && (status_code r <? 600)
          then run.1 = Raised (HTTPError (status_code r))
          else match body_json r with
               | Some result => run.1 = Done result
               | None => ∃ e, run.1 = Raised e
               end
      end
  end.
Proof.
  intros run. subst run. rewrite generate_image_run.
  destruct (model_endpoints !! model) as [name|]; [|done].
  cbn zeta. split; [done|]. cbn [fst]. unfold outcome_of_reply, json_of, ok.
  destruct (respond env _ _) as [r|msg]; [|done].
  destruct ((400 <=? status_code r) && (status_code r <? 600)); [done|].
  cbn [negb]. destruct (body_json r); [done|by eexists].
Qed.

(** X10: [generate_and_wait] sends nothing for an unsupported model.  For a
    supported one its first exchange is the submission; it polls only when
    the submission was answered with a task id, every later exchange is a
    status query for that id, every sleep lasts five seconds whatever the
    keywords say, and a status it returns says [Ready]. *)
Theorem generate_and_wait_polls_the_submitted_task fuel prompt model kwargs w :
  let run := generate_and_wait env fuel self prompt model kwargs w in
  match model_endpoints !! model with
  | None => run = (Raised (ValueError_unsupported_model model), w)
  | Some name =>
      let sub := submission self prompt model name kwargs in
      ∃ polls (k : nat),
        trace run.2 =
          (trace w ++ (sub, respond env (length (trace w)) sub) :: polls)%list ∧
        sleeps run.2 =
          (sleeps w ++
           replicate k (5 * Z.pos (ticks_per_second env)))%list ∧
        (polls = [] ∨
         ∃ result,
           answers env (length (trace w)) sub result ∧
           truthy (get result "id") = true ∧
           Forall (λ x, x.1 = status_query self (get result "id")) polls) ∧
        (∀ status, run.1 = Done status →
                   eq_str (get status "status") "Ready" = true)
  end.
Proof.
  intros run. subst run. unfold generate_and_wait.
  rewrite bind_run, generate_image_run.
  destruct (model_endpoints !! model) as [name|]; [|done].
  cbn zeta. set (sub := submission self prompt model name kwargs).
  assert (Hstop : ∀ o : outcome dict, (∀ status, o ≠ Done status) →
    ∃ polls (k : nat),
      trace (o, after_call env sub w).2 =
        (trace w ++ (sub, respond env (length (trace w)) sub) :: polls)%list ∧
      sleeps (o, after_call env sub w).2 =
        (sleeps w ++ replicate k (5 * Z.pos (ticks_per_second env)))%list ∧
      (polls = [] ∨
       ∃ result,
         answers env (length (trace w)) sub result ∧
         truthy (get result "id") = true ∧
         Forall (λ x, x.1 = status_query self (get result "id")) polls) ∧
      (∀ status, (o, after_call env sub w).1 = Done status →
                 eq_str (get status "status") "Ready" = true)).
  { intros o Ho. exists [], 0%nat. cbn [fst snd replicate].
    rewrite app_nil_r. split_and!; [done|done|by left|].
    intros status ->. by destruct (Ho status). }
  unfold outcome_of_reply, json_of.
  destruct (respond env (length (trace w)) sub) as [r|msg] eqn:Hr;
    [|by apply Hstop].
  destruct (ok r) eqn:Hok; [|by apply Hstop].
  destruct (body_json r) as [result|] eqn:Hjson; [|by apply Hstop].
  destruct (truthy (get result "id")) eqn:Hid; cbn [negb];
    [|by apply Hstop].
  destruct (seconds_to_ticks env _) as [limit|]; [|by apply Hstop].
  rewrite wait_for_completion_run.
  destruct (wait_loop_shape env self (get result "id") limit
              (5 * Z.pos (ticks_per_second env)) fuel
              (now (after_call env sub w)) (after_call env sub w))
    as (polls & k & Htrace & Hsleeps & Hall & _).
  exists polls, k. split_and!.
  - rewrite Htrace. unfold after_call. cbn [trace].
    by rewrite Hr, <- app_assoc.
  - exact Hsleeps.
  - right. exists result. split; [by exists r|done].
  - intros status Hdone.
    by apply (wait_loop_done env self (get result "id") limit
                (5 * Z.pos (ticks_per_second env)) fuel
                (now (after_call env sub w)) (after_call env sub w) status).
Qed.

(** X11: a [max_wait_time] of zero or less, passed to [generate_and_wait] as a
    keyword: the job is submitted, and when the backend accepts it with a
    task id the call times out without asking for its status once. *)
Theorem generate_and_wait_zero_wait fuel prompt model kwargs name result z w :
  model_endpoints !! model = Some name →
  answers env (length (trace w)) (submission self prompt model name kwargs)
    result →
  truthy (get result "id") = true →
  kwargs !! "max_wait_time" = Some (VInt z) → z ≤ 0 →
  generate_and_wait env (S fuel) self prompt model kwargs w =
  (Raised (TimeoutError (get result "id")
             (z * Z.pos (ticks_per_second env))),
   after_call env (submission self prompt model name kwargs) w).
Proof.
  intros Hname Hanswer Hid Hwait Hz. unfold generate_and_wait.
  rewrite bind_run, (generate_image_answers _ _ _ _ _ _ _ _ Hname Hanswer).
  rewrite Hid. cbn [negb]. unfold get_or. rewrite Hwait.
  cbn [from_option id seconds_to_ticks].
  rewrite wait_for_completion_run. apply wait_loop_timeout. nia.
Qed.

End SubmitAndPoll.

Lemma generate_and_wait_zero_wait_witness :
  let env := Sample.scripted [] (Sample.answer 200 {[ "id" := VStr "task-1" ]}) in
  let run := generate_and_wait env 1 Sample.client "a red bicycle" "flux-pro"
               {[ "max_wait_time" := VInt 0 ]} Sample.start in
  run.1 = Raised (TimeoutError (VStr "task-1") 0) ∧
  length (trace run.2) = 1%nat.
Proof.
  intros env run. subst run.
  rewrite (generate_and_wait_zero_wait env Sample.client 0 "a red bicycle"
             "flux-pro" {[ "max_wait_time" := VInt 0 ]} "flux-pro"
             {[ "id" := VStr "task-1" ]} 0 Sample.start).
  - by vm_compute.
  - reflexivity.
  - by exists (Response 200 [] (Some {[ "id" := VStr "task-1" ]})).
  - reflexivity.
  - reflexivity.
  - lia.
Defined.

(** ** What the two attempts of the video client share *)

Section VideoRequests.
Context (env : Env) (self : Sora.Sora).

Lemma build_files_length images image_filenames :
  length (Sora.build_files images image_filenames) =
  (length images `min` length image_filenames)%nat.
Proof. unfold Sora.build_files. by rewrite length_fmap, length_zip. Qed.

(** X12: every request of [create_video_generation_job_with_images] is a POST
    to the jobs URL whose only header is the API key (no content type);
    both attempts carry the same form fields apart from [inpaint_items]
    and the same files, built afresh, one per image that has a file name:
    when there are fewer images than file names, descriptors name files
    that are not attached. *)
Theorem create_video_generation_job_with_images_requests
    prompt images image_filenames n_seconds height width n_variants w :
  let run := Sora.create_video_generation_job_with_images env self prompt
               images image_filenames n_seconds height width n_variants w in
  ∃ new,
    trace run.2 = (trace w ++ new)%list ∧
    (length new = 1 ∨ length new = 2)%nat ∧
    Forall (λ x,
      rq_method x.1 = POST ∧
      rq_url x.1 = Sora.base_url self +:+ "/generations/jobs?api-version="
                   +:+ Sora.api_version self ∧
      rq_headers x.1 = [("api-key", Sora.api_key self)] ∧
      plain_fields x.1 =
        [("prompt", FStr prompt);
         ("height", FStr (pretty height));
         ("width", FStr (pretty width));
         ("n_seconds", FStr (pretty n_seconds));
         ("n_variants", FStr (pretty n_variants));
         ("model", FStr (Sora.deployment_name self))] ∧
      attachments x.1 = Sora.build_files images image_filenames ∧
      length (attachments x.1) =
        (length images `min` length image_filenames)%nat ∧
      (length <$> inpaint_items x.1) = Some (length image_filenames)) new.
Proof.
  intros run. subst run.
  unfold Sora.create_video_generation_job_with_images.
  unfold requests_post_multipart.
  assert (Hhdrs : filter (λ kv : string * string,
                            Sora.lower kv.1 ≠ "content-type")
                    (Sora.headers self) = [("api-key", Sora.api_key self)])
    by reflexivity.
  rewrite Hhdrs.
  set (url := Sora.base_url self +:+ _ +:+ _).
  set (files := Sora.build_files images image_filenames).
  match goal with
  | |- context [requests_send env ?rq] =>
      match rq with context [Sora.item_no_crop] => set (rq1 := rq) end
  end.
  match goal with
  | |- context [requests_send env ?rq] =>
      match rq with context [Sora.item_with_crop] => set (rq2 := rq) end
  end.
  assert (Hgood : ∀ rq, rq = rq1 ∨ rq = rq2 →
    rq_method rq = POST ∧ rq_url rq = url ∧
    rq_headers rq = [("api-key", Sora.api_key self)] ∧
    plain_fields rq =
      [("prompt", FStr prompt); ("height", FStr (pretty height));
       ("width", FStr (pretty width)); ("n_seconds", FStr (pretty n_seconds));
       ("n_variants", FStr (pretty n_variants));
       ("model", FStr (Sora.deployment_name self))] ∧
    attachments rq = files ∧
    length (attachments rq) = (length images `min` length image_filenames)%nat ∧
    (length <$> inpaint_items rq) = Some (length image_filenames)).
  { intros rq [-> | ->]; (split_and!; try reflexivity;
      [apply build_files_length|cbn; by rewrite length_fmap]). }
  rewrite bind_run, requests_send_run.
  destruct (respond env (length (trace w)) rq1) as [r1|msg] eqn:Hr1.
  2:{ exists [(rq1, NetErr msg)]. unfold after_call. cbn [snd trace].
      rewrite Hr1. split_and!; [done|by left|].
      apply Forall_singleton. apply Hgood. by left. }
  destruct (ok r1).
  { exists [(rq1, NetOk r1)]. split_and!.
    - unfold json. destruct (body_json r1); unfold after_call;
        cbn [snd trace]; by rewrite Hr1.
    - by left.
    - apply Forall_singleton. apply Hgood. by left. }
  rewrite bind_run, requests_send_run.
  set (w1 := after_call env rq1 w).
  set (res2 := respond env (length (trace w1)) rq2).
  exists [(rq1, NetOk r1); (rq2, res2)].
  assert (Htrace : trace (after_call env rq2 w1) =
                   (trace w ++ [(rq1, NetOk r1); (rq2, res2)])%list).
  { unfold after_call at 1. cbn [trace]. fold res2.
    unfold w1, after_call. cbn [trace]. by rewrite Hr1, <- app_assoc. }
  split_and!.
  - destruct res2 as [r2|msg]; [|done].
    rewrite bind_run. unfold raise_for_status.
    destruct (ok r2); cbn [negb]; [|done].
    rewrite ret_run. unfold json. by destruct (body_json r2).
  - by right.
  - apply Forall_cons. split; [apply Hgood; by left|].
    apply Forall_singleton. apply Hgood. by right.
Qed.

End VideoRequests.

(** ** File names *)

Section FilenameProperties.
Import Images.
Context (stem_of suffix_of : str → str).

Lemma has_double_underscore_cons c s :
  has_double_underscore (c :: s) =
  match head s with
  | Some c' => (c =? underscore)%N && (c' =? underscore)%N
  | None => false
  end || has_double_underscore s.
Proof. by destruct s. Qed.

Lemma has_double_underscore_app_r a : ∀ s,
  has_double_underscore (a ++ s)%list = false → has_double_underscore s = false.
Proof.
  induction a as [|c a IH]; intros s; [done|].
  rewrite <- app_comm_cons, has_double_underscore_cons.
  intros [_ H]%orb_false_iff. by apply IH.
Qed.

Lemma has_double_underscore_app_l s b :
  has_double_underscore (s ++ b)%list = false → has_double_underscore s = false.
Proof.
  induction s as [|c s IH]; [done|].
  rewrite <- app_comm_cons, !has_double_underscore_cons.
  intros [H1 H2]%orb_false_iff. rewrite (IH H2), orb_false_r.
  destruct s as [|c' s]; [done|]. exact H1.
Qed.

Lemma replace_unsafe_safe s : forallb is_safe (replace_unsafe s) = true.
Proof.
  induction s as [|c s IH]; [done|].
  unfold replace_unsafe. cbn [fmap list_fmap forallb].
  fold (replace_unsafe s). rewrite IH, andb_true_r.
  by destruct (is_safe c) eqn:Hc.
Qed.

Lemma squeeze_underscores_head s : head (squeeze_underscores s) = head s.
Proof.
  induction s as [|c s IH]; [done|]. cbn [squeeze_underscores].
  destruct (N.eqb_spec c underscore) as [->|]; [|done].
  destruct s as [|c' s]; [done|].
  destruct (N.eqb_spec c' underscore) as [->|]; [|done].
  by rewrite IH.
Qed.

Lemma squeeze_underscores_squeezed s :
  has_double_underscore (squeeze_underscores s) = false.
Proof.
  induction s as [|c s IH]; [done|]. cbn [squeeze_underscores].
  destruct (N.eqb_spec c underscore) as [->|Hc].
  - destruct s as [|c' s]; [done|].
    destruct (N.eqb_spec c' underscore) as [->|Hc']; [done|].
    rewrite has_double_underscore_cons, IH, squeeze_underscores_head.
    cbn [head]. apply N.eqb_neq in Hc'. by rewrite Hc'.
  - rewrite has_double_underscore_cons, IH.
    apply N.eqb_neq in Hc. rewrite Hc. by destruct (head _).
Qed.

Lemma squeeze_underscores_safe s :
  forallb is_safe s = true → forallb is_safe (squeeze_underscores s) = true.
Proof.
  induction s as [|c s IH]; [done|]. cbn [forallb squeeze_underscores].
  intros [Hc Hs]%andb_true_iff. specialize (IH Hs).
  destruct (c =? underscore)%N.
  - destruct s as [|c' s]; [by cbn; rewrite Hc|].
    destruct (c' =? underscore)%N; [done|].
    cbn [forallb]. by rewrite Hc, IH.
  - cbn [forallb]. by rewrite Hc, IH.
Qed.

Lemma lstrip_suffix s : ∃ a, s = (a ++ lstrip s)%list.
Proof.
  induction s as [|c s [a IH]]; [by exists []|]. cbn [lstrip].
  destruct (stripped c); [|by exists []].
  exists (c :: a). by rewrite <- app_comm_cons, <- IH.
Qed.

Lemma lstrip_starts_clean s : starts_clean (lstrip s) = true.
Proof.
  induction s as [|c s IH]; [done|]. cbn [lstrip].
  destruct (stripped c) eqn:Hc; [done|]. unfold starts_clean. cbn [head].
  by rewrite Hc.
Qed.

Lemma strip_infix s : ∃ a b, s = (a ++ strip s ++ b)%list.
Proof.
  destruct (lstrip_suffix s) as [a Ha].
  destruct (lstrip_suffix (reverse (lstrip s))) as [b Hb].
  exists a, (reverse b). unfold strip. rewrite <- reverse_app, <- Hb.
  by rewrite reverse_involutive.
Qed.

Lemma strip_starts_clean s : starts_clean (strip s) = true.
Proof.
  unfold strip, starts_clean. rewrite head_reverse.
  destruct (lstrip_suffix (reverse (lstrip s))) as [a Ha].
  destruct (last (lstrip (reverse (lstrip s)))) as [c|] eqn:Hc; [|done].
  apply last_Some in Hc as [t Ht].
  assert (Hlast : last (reverse (lstrip s)) = Some c)
    by (by rewrite Ha, Ht, app_assoc, last_snoc).
  rewrite last_reverse in Hlast.
  pose proof (lstrip_starts_clean s) as Hclean. unfold starts_clean in Hclean.
  by rewrite Hlast in Hclean.
Qed.

Lemma strip_ends_clean s : ends_clean (strip s) = true.
Proof.
  unfold strip, ends_clean. rewrite last_reverse.
  apply lstrip_starts_clean.
Qed.

Lemma forallb_infix (P : char → bool) a s b :
  forallb P (a ++ s ++ b)%list = true → forallb P s = true.
Proof.
  rewrite !forallb_app. by intros [_ [H _]%andb_true_iff]%andb_true_iff.
Qed.

Lemma clean_stem_clean filename :
  let stem := clean_stem stem_of filename in
  stem ≠ [] ∧ forallb is_safe stem = true ∧
  has_double_underscore stem = false ∧
  starts_clean stem = true ∧ ends_clean stem = true.
Proof.
  intros stem. subst stem. unfold clean_stem.
  set (s := squeeze_underscores (replace_unsafe (stem_of filename))).
  pose proof (strip_starts_clean s) as Hhead.
  pose proof (strip_ends_clean s) as Hlast.
  assert (Hsafe : forallb is_safe s = true)
    by apply squeeze_underscores_safe, replace_unsafe_safe.
  assert (Hdouble : has_double_underscore s = false)
    by apply squeeze_underscores_squeezed.
  destruct (strip_infix s) as (a & b & Hs).
  rewrite Hs in Hsafe, Hdouble. apply forallb_infix in Hsafe.
  apply has_double_underscore_app_r, has_double_underscore_app_l in Hdouble.
  destruct (strip s) as [|c t]; [by vm_compute|done].
Qed.

Lemma slice_to_take n s : ∃ k, slice_to n s = take k s.
Proof. unfold slice_to. destruct (0 <=? n); by eexists. Qed.

Lemma length_slice_to n s :
  0 ≤ n → length (slice_to n s) = (Z.to_nat n `min` length s)%nat.
Proof.
  intros Hn. unfold slice_to. destruct (Z.leb_spec 0 n); [|lia].
  by rewrite length_take.
Qed.

Lemma forallb_take (P : char → bool) k : ∀ s,
  forallb P s = true → forallb P (take k s) = true.
Proof.
  induction k as [|k IH]; intros [|c s]; try done. cbn [forallb take].
  intros [Hc Hs]%andb_true_iff. by rewrite Hc, IH.
Qed.

Lemma starts_clean_take k s :
  starts_clean s = true → starts_clean (take k s) = true.
Proof. by destruct k, s. Qed.

Lemma with_suffix (stem suffix : str) :
  match suffix with [] => stem | _ => (stem ++ suffix)%list end
  = (stem ++ suffix)%list.
Proof. destruct suffix; [by rewrite app_nil_r|done]. Qed.

Lemma normalize_filename_run filename :
  filename ≠ [] →
  normalize_filename stem_of suffix_of filename =
  let suffix := suffix_of filename in
  let stem := clean_stem stem_of filename in
  if (200 <? length (stem ++ suffix)%list)%nat then
    (slice_to (200 - Z.of_nat (length suffix)) stem ++ suffix)%list
  else (stem ++ suffix)%list.
Proof.
  intros Hname. unfold normalize_filename.
  destruct filename as [|c filename]; [done|]. cbn zeta.
  by rewrite !with_suffix.
Qed.

(** X13: the result of [normalize_filename] on a name that is not empty
    is a stem followed by the suffix of the name, unchanged.  The stem
    holds only letters, digits, underscores, hyphens and dots, never two
    underscores in a row, and does not start with an underscore or a dot;
    when the result is shorter than 200 characters the stem is not empty
    and does not end with an underscore or a dot either. *)
Theorem normalize_filename_stem_is_clean filename :
  filename ≠ [] →
  ∃ stem,
    normalize_filename stem_of suffix_of filename
      = (stem ++ suffix_of filename)%list ∧
    forallb is_safe stem = true ∧
    has_double_underscore stem = false ∧
    starts_clean stem = true ∧
    ((length (normalize_filename stem_of suffix_of filename) < 200)%nat →
     stem ≠ [] ∧ ends_clean stem = true).
Proof.
  intros Hname. rewrite (normalize_filename_run _ Hname). cbn zeta.
  destruct (clean_stem_clean filename)
    as (Hne & Hsafe & Hdouble & Hhead & Hlast).
  set (stem := clean_stem stem_of filename) in *.
  set (suffix := suffix_of filename).
  destruct (Nat.ltb_spec 200 (length (stem ++ suffix)%list)) as [Hlong|Hshort].
  - exists (slice_to (200 - Z.of_nat (length suffix)) stem).
    split; [done|].
    assert (Hlen : (200 ≤ length (slice_to (200 - Z.of_nat (length suffix)) stem
                                  ++ suffix)%list)%nat).
    { rewrite length_app in *. unfold slice_to.
      destruct (Z.leb_spec 0 (200 - Z.of_nat (length suffix))).
      - rewrite length_take. lia.
      - lia. }
    destruct (slice_to_take (200 - Z.of_nat (length suffix)) stem) as [k Hk].
    rewrite Hk in *. split_and!.
    + by apply forallb_take.
    + apply (has_double_underscore_app_l _ (drop k stem)).
      by rewrite take_drop.
    + by apply starts_clean_take.
    + lia.
  - exists stem. by split_and!.
Qed.

(** X14: when the suffix of the name has at most 200 characters, the
    result of [normalize_filename] has at most 200 characters. *)
Theorem normalize_filename_length filename :
  (length (suffix_of filename) ≤ 200)%nat →
  (length (normalize_filename stem_of suffix_of filename) ≤ 200)%nat.
Proof.
  intros Hsuffix. destruct (decide (filename = [])) as [->|Hname];
    [cbn; lia|].
  rewrite (normalize_filename_run _ Hname). cbn zeta.
  destruct (Nat.ltb_spec 200
              (length (clean_stem stem_of filename ++ suffix_of filename)%list))
    as [Hlong|Hshort]; [|done].
  rewrite length_app. unfold slice_to.
  destruct (Z.leb_spec 0 (200 - Z.of_nat (length (suffix_of filename))));
    [|lia].
  rewrite length_take. lia.
Qed.

(** X15: [normalize_filename] returns the empty name for the empty name
    only: a name with nothing usable in it becomes [generated_image] or
    keeps at least its suffix. *)
Theorem normalize_filename_empty_iff filename :
  normalize_filename stem_of suffix_of filename = [] ↔ filename = [].
Proof.
  split; [|by intros ->].
  intros Hempty. destruct (decide (filename = [])) as [|Hname]; [done|].
  exfalso. rewrite (normalize_filename_run _ Hname) in Hempty.
  cbn zeta in Hempty.
  destruct (clean_stem_clean filename) as (Hne & _).
  set (stem := clean_stem stem_of filename) in *.
  destruct (Nat.ltb_spec 200 (length (stem ++ suffix_of filename)%list))
    as [Hlong|Hshort].
  - apply app_eq_nil in Hempty as [Hstem Hsuffix].
    rewrite Hsuffix, app_nil_r in Hlong. rewrite Hsuffix in Hstem.
    apply (f_equal length) in Hstem.
    rewrite length_slice_to in Hstem by (cbn [length]; lia).
    cbn [length] in Hstem. lia.
  - by apply app_eq_nil in Hempty as [Hstem _].
Qed.

Lemma replace_unsafe_id s : forallb is_safe s = true → replace_unsafe s = s.
Proof.
  induction s as [|c s IH]; [done|]. cbn [forallb].
  intros [Hc Hs]%andb_true_iff. unfold replace_unsafe. cbn [fmap list_fmap].
  fold (replace_unsafe s). by rewrite Hc, IH.
Qed.

Lemma squeeze_underscores_id s :
  has_double_underscore s = false → squeeze_underscores s = s.
Proof.
  induction s as [|c s IH]; [done|]. rewrite has_double_underscore_cons.
  intros [Hc Hs]%orb_false_iff. cbn [squeeze_underscores]. rewrite (IH Hs).
  destruct (c =? underscore)%N; [|done].
  destruct s as [|c' s]; [done|]. cbn [head andb] in Hc. by rewrite Hc.
Qed.

Lemma lstrip_id s : starts_clean s = true → lstrip s = s.
Proof.
  destruct s as [|c s]; [done|]. unfold starts_clean. cbn [head lstrip].
  by destruct (stripped c).
Qed.

Lemma strip_id s :
  starts_clean s = true → ends_clean s = true → strip s = s.
Proof.
  intros Hhead Hlast. unfold strip. rewrite (lstrip_id _ Hhead).
  rewrite lstrip_id; [by rewrite reverse_involutive|].
  unfold starts_clean. by rewrite head_reverse.
Qed.

(** X16: a name that needs no cleaning is put together again from its
    stem and its suffix: when the stem is not empty, holds only characters
    the pattern keeps, no two underscores in a row and no underscore or dot
    at either end, and stem and suffix have at most 200 characters
    together, [normalize_filename] returns the stem followed by the
    suffix. *)
Theorem normalize_filename_keeps_clean_names filename :
  filename ≠ [] →
  stem_of filename ≠ [] →
  forallb is_safe (stem_of filename) = true →
  has_double_underscore (stem_of filename) = false →
  starts_clean (stem_of filename) = true →
  ends_clean (stem_of filename) = true →
  (length (stem_of filename) + length (suffix_of filename) ≤ 200)%nat →
  normalize_filename stem_of suffix_of filename
    = (stem_of filename ++ suffix_of filename)%list.
Proof.
  intros Hname Hne Hsafe Hdouble Hhead Hlast Hlen.
  assert (Hclean : clean_stem stem_of filename = stem_of filename).
  { unfold clean_stem.
    rewrite (replace_unsafe_id _ Hsafe), (squeeze_underscores_id _ Hdouble),
      (strip_id _ Hhead Hlast).
    by destruct (stem_of filename). }
  rewrite (normalize_filename_run _ Hname). cbn zeta. rewrite Hclean.
  destruct (Nat.ltb_spec 200 (length (stem_of filename ++ suffix_of filename)%list))
    as [Hlong|]; [|done].
  rewrite length_app in Hlong. lia.
Qed.

End FilenameProperties.

Lemma normalize_filename_stem_is_clean_witness :
  ∃ stem,
    Images.normalize_filename Names.stem Names.suffix
      (Images.literal "my  holiday (1).png")
      = (stem ++ Images.literal ".png")%list ∧
    forallb Images.is_safe stem = true.
Proof.
  destruct (normalize_filename_stem_is_clean Names.stem Names.suffix
              (Images.literal "my  holiday (1).png"))
    as (stem & Hresult & Hsafe & _); [done|].
  by exists stem.
Defined.

Lemma normalize_filename_length_witness :
  let name := (replicate 300 97%N ++ Images.literal ".png")%list in
  (length (Images.normalize_filename Names.stem Names.suffix name) ≤ 200)%nat.
Proof.
  intros name.
  apply (normalize_filename_length Names.stem Names.suffix name).
  vm_compute. lia.
Defined.

Lemma normalize_filename_keeps_clean_names_witness :
  Images.normalize_filename Names.stem Names.suffix
    (Images.literal "report-2024.final.pdf")
  = Images.literal "report-2024.final.pdf".
Proof.
  rewrite (normalize_filename_keeps_clean_names Names.stem Names.suffix
             (Images.literal "report-2024.final.pdf"));
    first [by vm_compute | vm_compute; lia].
Defined.

(** ** The Flux endpoints *)

Section EndpointRuns.
Import FluxEndpoints.
Context (env : Env) {Response : Type}
  (ImageGenerationResponse : dict → string + Response)
  (b64encode : list Byte.byte → string)
  (str_value : value → string) (str_error : failure → string).
Context (client : FluxClient).

Implicit Types (w : world) (kwargs result status : dict) (k : string).

Lemma T_bind_run {A B} (m : T A) (k : A → T B) w :
  (m ≫= k) w =
  match m w with
  | (Returned a, w') => k a w'
  | (Failed f, w') => (Failed f, w')
  | (NoFuel, w') => (NoFuel, w')
  end.
Proof. reflexivity. Qed.

Lemma download_image_run url w :
  download_image env client url w =
  (match respond env (length (trace w)) (download_request url) with
   | NetOk r => if ok r then Done (content r)
                else Raised (HTTPError (status_code r))
   | NetErr msg => Raised (RequestException msg)
   end, after_call env (download_request url) w).
Proof.
  unfold download_image, requests_get. rewrite bind_run, requests_send_run.
  fold (download_request url).
  destruct (respond env _ _) as [r|msg]; [|done].
  rewrite bind_run. unfold raise_for_status.
  destruct (ok r); [by rewrite ret_run|done].
Qed.

(** A field of the model that the keywords hold reaches the payload as
    given, unless it is [None] *)
Lemma payload_field_of_kwargs prompt model kwargs k v :
  kwargs !! k = Some v → k ∈ (model_fields model kwargs).*1 →
  generate_image_payload prompt model kwargs !! k = sent v.
Proof.
  intros Hk Hin.
  assert (Hkeep : ∀ k' p, p !! k = Some v →
    add_if_given k' kwargs p !! k = Some v).
  { intros k' p Hp. unfold add_if_given. case_match; [|done].
    destruct (decide (k' = k)) as [->|].
    - rewrite lookup_insert_eq. unfold get. by rewrite Hk.
    - by rewrite lookup_insert_ne. }
  assert (Hraw : add_if_given "webhook_secret" kwargs
                   (add_if_given "webhook_url" kwargs
                      (update {[ "prompt" := VStr prompt ]}
                         (model_fields model kwargs))) !! k = Some v).
  { do 2 apply Hkeep.
    apply lookup_update_last; [by apply model_fields_given|done]. }
  unfold generate_image_payload, sent. cbn zeta.
  destruct (is_none v) eqn:Hv.
  - apply lookup_drop_none_None. right. rewrite Hraw. by destruct v.
  - by apply lookup_drop_none_Some.
Qed.

Lemma generate_image_payload_prompt prompt model kwargs :
  generate_image_payload prompt model kwargs !! "prompt" = Some (VStr prompt).
Proof.
  unfold generate_image_payload. apply lookup_drop_none_Some. split; [|done].
  rewrite !lookup_add_if_given_ne by done.
  assert (Hfields : "prompt" ∉ (model_fields model kwargs).*1).
  { unfold model_fields. repeat case_match; cbn; intros E; by off_list E. }
  revert Hfields. generalize (model_fields model kwargs). unfold update.
  intros kvs.
  assert (H : ∀ d : dict, d !! "prompt" = Some (VStr prompt) →
    "prompt" ∉ kvs.*1 →
    foldl (λ acc kv, <[kv.1:=kv.2]> acc) d kvs !! "prompt"
      = Some (VStr prompt)).
  { induction kvs as [|[k' v'] kvs IH]; intros d Hd Hnot; [done|]. cbn.
    apply IH.
    - rewrite lookup_insert_ne; [done|]. intros ->. apply Hnot. cbn. by left.
    - intros Hin. apply Hnot. cbn. by right. }
  apply H. by rewrite lookup_singleton_eq.
Qed.

(** What a run of [generate_and_wait] for a supported model looks like:
    it starts with the submission, and a status it returns says [Ready]
    and is the JSON of the last answer, which a status query received. *)
Lemma generate_and_wait_shape fuel prompt model name kwargs w :
  model_endpoints !! model = Some name →
  let run := generate_and_wait env fuel client prompt model kwargs w in
  let sub := submission client prompt model name kwargs in
  ∃ polls,
    trace run.2 =
      (trace w ++ (sub, respond env (length (trace w)) sub) :: polls)%list ∧
    ∀ status, run.1 = Done status →
      eq_str (get status "status") "Ready" = true ∧
      ∃ task_id r,
        last (trace run.2) = Some (status_query client task_id, NetOk r) ∧
        ok r = true ∧ body_json r = Some status.
Proof.
  intros Hname run sub. subst run. unfold generate_and_wait.
  rewrite bind_run, generate_image_run, Hname. cbn zeta. fold sub.
  assert (Hstop : ∀ o : outcome dict, (∀ status, o ≠ Done status) →
    ∃ polls,
      trace (o, after_call env sub w).2 =
        (trace w ++ (sub, respond env (length (trace w)) sub) :: polls)%list ∧
      ∀ status, (o, after_call env sub w).1 = Done status →
        eq_str (get status "status") "Ready" = true ∧
        ∃ task_id r,
          last (trace (o, after_call env sub w).2)
            = Some (status_query client task_id, NetOk r) ∧
          ok r = true ∧ body_json r = Some status).
  { intros o Ho. exists []. cbn [fst snd]. split; [done|].
    intros status ->. by destruct (Ho status). }
  unfold outcome_of_reply, json_of.
  destruct (respond env (length (trace w)) sub) as [r|msg] eqn:Hr;
    [|by apply Hstop].
  destruct (ok r) eqn:Hok; [|by apply Hstop].
  destruct (body_json r) as [result|] eqn:Hjson; [|by apply Hstop].
  destruct (truthy (get result "id")) eqn:Hid; cbn [negb];
    [|by apply Hstop].
  destruct (seconds_to_ticks env _) as [limit|]; [|by apply Hstop].
  rewrite wait_for_completion_run.
  destruct (wait_loop_shape env client (get result "id") limit
              (5 * Z.pos (ticks_per_second env)) fuel
              (now (after_call env sub w)) (after_call env sub w))
    as (polls & k & Htrace & _).
  exists polls. split.
  - rewrite Htrace. unfold after_call. cbn [trace].
    by rewrite Hr, <- app_assoc.
  - intros status Hdone.
    destruct (wait_loop_done env client (get result "id") limit
                (5 * Z.pos (ticks_per_second env)) fuel
                (now (after_call env sub w)) (after_call env sub w) status
                Hdone) as (Hready & r' & Hlast & Hok' & Hjson').
    split; [done|]. by exists (get result "id"), r'.
Qed.

(** From "Process result" on, an endpoint sends at most the download *)
Lemma process_result_trace what prompt result w :
  let run := process_result env ImageGenerationResponse b64encode str_value
               what client prompt result w in
  ∃ extra, trace run.2 = (trace w ++ extra)%list.
Proof.
  intros run. subst run. unfold process_result.
  destruct (negb (eq_str (get result "status") "Ready"));
    [exists []; by rewrite app_nil_r|].
  rewrite T_bind_run. unfold value_get.
  destruct (get_or result "result" (VDict ∅));
    try (exists []; by rewrite app_nil_r).
  change (mret (M := T) ?a w) with (Returned a, w). cbv iota beta.
  destruct (negb (truthy (get d "sample")));
    [exists []; by rewrite app_nil_r|].
  rewrite T_bind_run. unfold download.
  destruct (get d "sample"); try (exists []; by rewrite app_nil_r).
  unfold call. rewrite download_image_run.
  exists [(download_request s,
           respond env (length (trace w)) (download_request s))].
  assert (Hmoved : ∀ (A : Type) (o : attempt A),
    trace (o, after_call env (download_request s) w).2 =
    (trace w ++ [(download_request s,
                  respond env (length (trace w)) (download_request s))])%list)
    by done.
  destruct (respond env _ _) as [r|msg]; [|apply Hmoved].
  destruct (ok r); [|apply Hmoved]. cbv iota beta.
  destruct (ImageGenerationResponse _); apply Hmoved.
Qed.

(** What a response that comes out of "Process result" was made from *)
Lemma process_result_returned what prompt result w response :
  let run := process_result env ImageGenerationResponse b64encode str_value
               what client prompt result w in
  run.1 = Returned response →
  ∃ inner url image data,
    get_or result "result" (VDict ∅) = VDict inner ∧
    get inner "sample" = VStr url ∧ url ≠ "" ∧
    trace run.2 = (trace w ++ [(download_request url, NetOk image)])%list ∧
    ok image = true ∧
    ImageGenerationResponse data = inr response ∧
    data !! "data"
      = Some (VList [image_entry (b64encode (content image)) url prompt]) ∧
    data !! "created" = Some (get_or result "created_at" (VInt 0)) ∧
    data !! "usage" = result !! "usage".
Proof.
  intros run. subst run. unfold process_result.
  destruct (negb (eq_str (get result "status") "Ready")); [done|].
  rewrite T_bind_run. unfold value_get.
  destruct (get_or result "result" (VDict ∅)) as [| | | | | |inner]; try done.
  change (mret (M := T) ?a w) with (Returned a, w). cbv iota beta.
  destruct (negb (truthy (get inner "sample"))) eqn:Htruthy; [done|].
  rewrite T_bind_run. unfold download.
  destruct (get inner "sample") as [| | | |url| |] eqn:Hsample; try done.
  unfold call. rewrite download_image_run.
  destruct (respond env (length (trace w)) (download_request url))
    as [image|msg] eqn:Himage; [|done].
  destruct (ok image) eqn:Hok; [|done]. cbv iota beta zeta.
  match goal with
  | |- context [ImageGenerationResponse ?d] =>
      set (data := d); destruct (ImageGenerationResponse data) as [detail|r]
        eqn:Hmodel; [done|]
  end.
  cbn [fst snd]. intros [= <-].
  exists inner, url, image, data. split_and!; try done.
  - intros ->. by cbn in Htruthy.
  - unfold after_call. cbn [trace]. by rewrite Himage.
  - subst data. destruct (result !! "usage") as [usage|].
    + rewrite !lookup_insert_ne by done. by rewrite lookup_singleton_eq.
    + rewrite lookup_insert_ne by done. by rewrite lookup_singleton_eq.
  - subst data. destruct (result !! "usage") as [usage|].
    + rewrite lookup_insert_ne by done. by rewrite lookup_insert_eq.
    + by rewrite lookup_insert_eq.
  - subst data. destruct (result !! "usage") as [usage|].
    + by rewrite lookup_insert_eq.
    + rewrite lookup_insert_ne by done. by rewrite lookup_singleton_ne.
Qed.

(** X17: an endpoint that raises, raises an [HTTPException]: without a
    client a 503, before anything is sent or the clock has moved; with a
    client a 500, whatever went wrong in the client, in the backend's
    answers or in the response model. *)
Theorem flux_endpoints_raise_503_or_500 fuel flux_client request edit
    task_id w :
  raises_503_or_500 flux_client w
    (generate_flux_image env ImageGenerationResponse b64encode str_value
       str_error fuel flux_client request w) ∧
  raises_503_or_500 flux_client w
    (edit_flux_image env ImageGenerationResponse b64encode str_value
       str_error fuel flux_client edit w) ∧
  raises_503_or_500 flux_client w
    (get_flux_task_status env str_error flux_client task_id w) ∧
  raises_503_or_500 flux_client w
    (generate_flux_image_async env str_error flux_client request w).
Proof.
  assert (Htry : ∀ A (body : T A) handler e,
    (∀ f, ∃ detail, handler f = HTTPException 500 detail) →
    (try_except body handler w).1 = Raised e →
    ∃ detail, e = HTTPException 500 detail).
  { intros A body handler e Hhandler. unfold try_except.
    destruct (body w) as [[a|f|] w']; cbn [fst]; try done.
    intros [= <-]. apply Hhandler. }
  unfold raises_503_or_500, generate_flux_image, edit_flux_image,
    get_flux_task_status, generate_flux_image_async.
  destruct flux_client as [c|]; split_and!;
    first [by eexists
          | intros e He; eapply Htry; [|exact He]; intros f; by eexists].
Qed.

(** X18: the editing endpoint turns its own refusals into a 500: a
    request for another model than [flux-kontext], or one without an
    [image_prompt], raises [HTTPException] with status 500, not 400; the
    message of the 400 is part of the detail, and nothing is sent. *)
Theorem edit_flux_image_refusal_becomes_500 fuel request w :
  String.eqb (edit_model request) "flux-kontext"
    && truthy (edit_image_prompt request) = false →
  let detail :=
    if String.eqb (edit_model request) "flux-kontext"
    then "image_prompt is required for Flux Kontext editing"
    else "Image editing requires flux-kontext model" in
  edit_flux_image env ImageGenerationResponse b64encode str_value str_error
    fuel (Some client) request w =
  (Raised (HTTPException 500
             ("Flux editing failed: " +:+
              str_error (Py (HTTPException 400 detail)))), w).
Proof.
  intros Hrefused detail. subst detail. unfold edit_flux_image, try_except.
  destruct (String.eqb (edit_model request) "flux-kontext");
    cbn [negb andb] in *; [|done].
  by rewrite Hrefused.
Qed.

(** Looks a key up in a literal list of keyword arguments *)
Ltac find_keyword :=
  apply lookup_update_last;
  [ repeat (apply Forall_cons; split; [cbn [fst snd]; by intros ?|]);
    by apply Forall_nil
  | cbn [fmap list_fmap fst];
    repeat first [by apply list_elem_of_here | apply list_elem_of_further] ].

Ltac find_field :=
  rewrite (model_fields_names _ _ ∅); vm_compute;
  repeat first [by apply list_elem_of_here | apply list_elem_of_further].

(** X19: whatever the editing endpoint sends first is the submission to
    [flux-kontext], and its body holds the prompt and the [image_prompt]
    of the request, which is true: through this endpoint no Kontext job is
    submitted without its input image. *)
Theorem edit_flux_image_sends_the_input_image fuel request w :
  let run := edit_flux_image env ImageGenerationResponse b64encode str_value
               str_error fuel (Some client) request w in
  trace run.2 = trace w ∨
  ∃ payload answer rest,
    trace run.2 =
      (trace w ++
       (Request POST (base_url client +:+ "/v1/flux-kontext") []
          (headers client) (JsonBody payload), answer) :: rest)%list ∧
    payload !! "prompt" = Some (VStr (edit_prompt request)) ∧
    payload !! "image_prompt" = Some (edit_image_prompt request) ∧
    truthy (edit_image_prompt request) = true.
Proof.
  intros run. subst run. unfold edit_flux_image, try_except.
  destruct (String.eqb_spec (edit_model request) "flux-kontext")
    as [Hmodel|]; cbn [negb]; [|by left].
  destruct (truthy (edit_image_prompt request)) eqn:Himage; cbn [negb];
    [|by left].
  right. rewrite T_bind_run. unfold call. rewrite Hmodel.
  destruct (generate_and_wait_shape fuel (edit_prompt request) "flux-kontext"
              "flux-kontext" (edit_kwargs request) w)
    as (polls & Htrace & _); [by vm_compute|].
  cbn zeta in Htrace. unfold submission in Htrace.
  assert (Hprompt := generate_image_payload_prompt (edit_prompt request)
                       "flux-kontext" (edit_kwargs request)).
  assert (Hfield : generate_image_payload (edit_prompt request) "flux-kontext"
                     (edit_kwargs request) !! "image_prompt"
                   = Some (edit_image_prompt request)).
  { rewrite (payload_field_of_kwargs _ _ _ _ (edit_image_prompt request)).
    - unfold sent. by destruct (edit_image_prompt request).
    - unfold edit_kwargs. find_keyword.
    - find_field. }
  destruct (generate_and_wait env fuel client (edit_prompt request)
              "flux-kontext" (edit_kwargs request) w) as [[result|e|] w1];
    cbn [fst snd] in Htrace.
  - destruct (process_result_trace "editing" (edit_prompt request) result w1)
      as [extra Hextra].
    cbn zeta in Hextra. rewrite Htrace, <- app_assoc in Hextra.
    destruct (process_result _ _ _ _ _ _ _ _ w1) as [[response|f|] w2];
      cbn [fst snd] in *; eexists _, _, (polls ++ extra)%list;
      by split_and!.
  - eexists _, _, polls. by split_and!.
  - eexists _, _, polls. by split_and!.
Qed.

(** X20: through the generation endpoints the defaults of the client
    never apply.  Every field of the model is among the keywords, so for
    [flux-pro] and [flux-pro-ultra] the payload holds each field as the
    request has it and lacks the fields the request leaves [None]: no
    width of 1024, no [jpeg].  Only the aspect ratio of the ultra model is
    defaulted, by the endpoint, when it is false. *)
Theorem generation_kwargs_leave_no_default request :
  let payload := generate_image_payload (prompt request) (model request)
                   (generation_kwargs request) in
  (model request = "flux-pro" →
     payload !! "width" = sent (width request) ∧
     payload !! "height" = sent (height request) ∧
     payload !! "prompt_upsampling" = sent (prompt_upsampling request) ∧
     payload !! "seed" = sent (seed request) ∧
     payload !! "safety_tolerance" = sent (safety_tolerance request) ∧
     payload !! "output_format" = sent (output_format request)) ∧
  (model request = "flux-pro-ultra" →
     payload !! "aspect_ratio" =
       Some (if truthy (aspect_ratio request) then aspect_ratio request
             else VStr "16:9") ∧
     payload !! "prompt_upsampling" = sent (prompt_upsampling request) ∧
     payload !! "seed" = sent (seed request) ∧
     payload !! "safety_tolerance" = sent (safety_tolerance request) ∧
     payload !! "output_format" = sent (output_format request) ∧
     payload !! "raw" = sent (raw request) ∧
     payload !! "image_prompt" = sent (image_prompt request) ∧
     payload !! "image_prompt_strength" = sent (image_prompt_strength request)).
Proof.
  intros payload. subst payload. split; intros Hmodel.
  - assert (Hkwargs : generation_kwargs request =
      update ∅
        [("width", width request); ("height", height request);
         ("prompt_upsampling", prompt_upsampling request);
         ("seed", seed request);
         ("safety_tolerance", safety_tolerance request);
         ("output_format", output_format request);
         ("webhook_url", webhook_url request);
         ("webhook_secret", webhook_secret request)])
      by (unfold generation_kwargs; by rewrite Hmodel).
    rewrite Hmodel.
    split_and!; apply payload_field_of_kwargs;
      first [rewrite Hkwargs; find_keyword | find_field].
  - assert (Hkwargs : generation_kwargs request =
      update ∅
        [("aspect_ratio",
          if negb (truthy (aspect_ratio request)) then VStr "16:9"
          else aspect_ratio request);
         ("prompt_upsampling", prompt_upsampling request);
         ("seed", seed request);
         ("safety_tolerance", safety_tolerance request);
         ("output_format", output_format request);
         ("raw", raw request);
         ("image_prompt", image_prompt request);
         ("image_prompt_strength", image_prompt_strength request);
         ("webhook_url", webhook_url request);
         ("webhook_secret", webhook_secret request)])
      by (unfold generation_kwargs; by rewrite Hmodel).
    rewrite Hmodel. split_and!.
    1:{ rewrite (payload_field_of_kwargs _ _ _ _
                   (if negb (truthy (aspect_ratio request)) then VStr "16:9"
                    else aspect_ratio request)).
        - unfold sent.
          destruct (truthy (aspect_ratio request)) eqn:Hratio; cbn [negb];
            [by destruct (aspect_ratio request)|done].
        - rewrite Hkwargs. find_keyword.
        - find_field. }
    all: apply payload_field_of_kwargs;
      first [rewrite Hkwargs; find_keyword | find_field].
Qed.

(** X21: a response of the generation endpoint is made from the last two
    exchanges: a status query answered with a status that says [Ready] and
    names the image under [result.sample], then the download of that very
    URL, answered without an error status.  The response is what the
    response model makes of data whose single entry holds the base64 of
    the downloaded bytes, the URL, and the prompt of the request as
    revised prompt. *)
Theorem generate_flux_image_returns_the_downloaded_image fuel request w
    response :
  let run := generate_flux_image env ImageGenerationResponse b64encode
               str_value str_error fuel (Some client) request w in
  run.1 = Done response →
  ∃ earlier task_id r status inner url image data,
    trace run.2 =
      (earlier ++ [(status_query client task_id, NetOk r);
                   (download_request url, NetOk image)])%list ∧
    body_json r = Some status ∧
    eq_str (get status "status") "Ready" = true ∧
    get_or status "result" (VDict ∅) = VDict inner ∧
    get inner "sample" = VStr url ∧
    ok image = true ∧
    ImageGenerationResponse data = inr response ∧
    data !! "data"
      = Some (VList [image_entry (b64encode (content image)) url
                       (prompt request)]).
Proof.
  intros run. subst run. unfold generate_flux_image, try_except.
  rewrite T_bind_run. unfold call.
  destruct (model_endpoints !! model request) as [name|] eqn:Hname.
  2:{ unfold generate_and_wait. by rewrite bind_run, generate_image_run, Hname. }
  destruct (generate_and_wait_shape fuel (prompt request) (model request)
              name (generation_kwargs request) w Hname)
    as (polls & _ & Hdone).
  cbn zeta in Hdone.
  destruct (generate_and_wait env fuel client (prompt request) (model request)
              (generation_kwargs request) w) as [[status|e|] w1];
    cbn [fst snd] in *; [|done|done].
  destruct (Hdone status eq_refl)
    as (Hready & task_id & r & Hlast & Hok & Hjson).
  pose proof (process_result_returned "generation" (prompt request) status w1)
    as Hmade. cbn zeta in Hmade.
  destruct (process_result _ _ _ _ _ _ _ _ w1) as [[made|f|] w2];
    cbn [fst snd] in *; [|done|done].
  intros [= <-].
  destruct (Hmade made eq_refl)
    as (inner & url & image & data & Hinner & Hsample & _ & Htrace & Himage
        & Hmodel & Hdata & _).
  apply last_Some in Hlast as [earlier Hearlier].
  exists earlier, task_id, r, status, inner, url, image, data.
  split_and!; try done.
  by rewrite Htrace, Hearlier, <- app_assoc.
Qed.

(** X22: the asynchronous endpoint reports [started] for every
    submission the backend answers with a JSON object, without looking for
    a task id: the [task_id] it returns is the [id] of the answer, [None]
    when the answer has none.  It sends that one request and nothing
    else. *)
Theorem generate_flux_image_async_reports_started request name result w :
  model_endpoints !! model request = Some name →
  answers env (length (trace w))
    (submission client (prompt request) (model request) name
       (generation_kwargs request)) result →
  generate_flux_image_async env str_error (Some client) request w =
  (Done ({[ "task_id" := get result "id";
            "status" := VStr "started";
            "message" := VStr "Generation started successfully" ]} : dict),
   after_call env
     (submission client (prompt request) (model request) name
        (generation_kwargs request)) w).
Proof.
  intros Hname Hanswer. unfold generate_flux_image_async, try_except.
  rewrite T_bind_run. unfold call.
  by rewrite (generate_image_answers _ _ _ _ _ _ _ _ Hname Hanswer).
Qed.

End EndpointRuns.

Lemma edit_flux_image_refusal_becomes_500_witness :
  FluxEndpoints.edit_flux_image Demo.delivering Demo.accept Demo.b64encode
    Demo.str_value Demo.str_error 5 (Some Sample.client)
    (Demo.edit_request "flux-kontext" VNone) Sample.start
  = (Raised (HTTPException 500
               "Flux editing failed: 400: image_prompt is required for Flux Kontext editing"),
     Sample.start).
Proof.
  exact (edit_flux_image_refusal_becomes_500 Demo.delivering Demo.accept
           Demo.b64encode Demo.str_value Demo.str_error Sample.client 5
           (Demo.edit_request "flux-kontext" VNone) Sample.start eq_refl).
Defined.

Lemma generation_kwargs_leave_no_default_witness :
  let request := Demo.generation_request "flux-pro" in
  let payload := generate_image_payload "a red bicycle" "flux-pro"
                   (FluxEndpoints.generation_kwargs request) in
  payload !! "width" = None ∧ payload !! "height" = Some (VInt 768) ∧
  generate_image_payload "a red bicycle" "flux-pro" ∅ !! "width"
    = Some (VInt 1024).
Proof.
  intros request payload.
  destruct (generation_kwargs_leave_no_default request) as [Hpro _].
  destruct (Hpro eq_refl) as (Hwidth & Hheight & _).
  split_and!; [exact Hwidth|exact Hheight|by vm_compute].
Defined.

Lemma generate_flux_image_returns_the_downloaded_image_witness :
  let run := FluxEndpoints.generate_flux_image Demo.delivering Demo.accept
               Demo.b64encode Demo.str_value Demo.str_error 5
               (Some Sample.client) (Demo.generation_request "flux-pro")
               Sample.start in
  ∃ response url image,
    run.1 = Done response ∧
    last (trace run.2) = Some (download_request url, NetOk image) ∧
    response !! "data"
      = Some (VList [image_entry (Demo.b64encode (content image)) url
                       "a red bicycle"]).
Proof.
  intros run.
  assert (Hrun : ∃ response, run.1 = Done response)
    by (eexists; by vm_compute).
  destruct Hrun as [response Hrun].
  destruct (generate_flux_image_returns_the_downloaded_image Demo.delivering
              Demo.accept Demo.b64encode Demo.str_value Demo.str_error
              Sample.client 5 (Demo.generation_request "flux-pro")
              Sample.start response Hrun)
    as (earlier & task_id & r & status & inner & url & image & data & Htrace
        & _ & _ & _ & _ & _ & Hmodel & Hdata).
  exists response, url, image. split_and!; [done| |].
  - fold run in Htrace. rewrite Htrace.
    by rewrite last_app.
  - by injection Hmodel as <-.
Defined.

Lemma generate_flux_image_async_reports_started_witness :
  let env := Sample.scripted [] (Sample.answer 200 ∅) in
  (FluxEndpoints.generate_flux_image_async env Demo.str_error
     (Some Sample.client) (Demo.generation_request "flux-pro")
     Sample.start).1
  = Done ({[ "task_id" := VNone; "status" := VStr "started";
             "message" := VStr "Generation started successfully" ]} : dict).
Proof.
  intros env.
  rewrite (generate_flux_image_async_reports_started env Demo.str_error
             Sample.client (Demo.generation_request "flux-pro") "flux-pro"
             ∅ Sample.start).
  - reflexivity.
  - by vm_compute.
  - by exists (Response 200 [] (Some ∅)).
Defined.
